(** * birads: GLCM texture features, dataset loader and confusion-matrix metrics

    A shallow embedding of [src/utils.py].  Python code that can raise is
    written in an error monad; code that talks to an outside object (the
    GUI "screen", the cells of the confusion matrix) additionally emits the
    sequence of events it performs.  Python floats are IEEE binary64 and are
    modelled by Rocq's primitive floats, so the arithmetic below rounds
    exactly as the interpreter does. *)

From Stdlib Require Import String Ascii.
From Stdlib Require Import ZArith List Lia Bool.
From Stdlib Require Import Numbers.DecimalString.
From Stdlib Require Import Floats.PrimFloat Floats.FloatOps Floats.SpecFloat.
Import ListNotations.

Set Implicit Arguments.

(** ** Exceptions and results *)

(** The exceptions the embedded code can meet.  [LibraryError] stands for
    whatever PIL, numpy, scikit-image or the operating system raise; the
    string is a free tag. *)
Inductive exception : Type :=
| IndexError
| OverflowError
| ValueError
| LibraryError (tag : string).

Inductive result (A : Type) : Type :=
| OK (a : A)
| Raise (e : exception).

Arguments OK {A} a.
Arguments Raise {A} e.

(** A computation that performs events of type [E] on the outside world and
    then returns or raises: the events done so far, in order, and the
    outcome.  Events done before an exception stay done. *)
Definition Eff (E A : Type) : Type := (list E * result A)%type.

Class Monad (M : Type -> Type) : Type := {
  ret : forall {A}, A -> M A;
  bind : forall {A B}, M A -> (A -> M B) -> M B
}.

Declare Scope monad_scope.
Delimit Scope monad_scope with monad.
Notation "x <- c1 ;; c2" := (bind c1 (fun x => c2))
  (at level 61, c1 at next level, right associativity) : monad_scope.
Notation "' pat <- c1 ;; c2" := (bind c1 (fun x => match x with pat => c2 end))
  (at level 61, pat pattern, c1 at next level, right associativity) : monad_scope.
Notation "c1 ;; c2" := (bind c1 (fun _ => c2))
  (at level 61, right associativity) : monad_scope.
Open Scope monad_scope.

Definition result_bind {A B} (c : result A) (k : A -> result B) : result B :=
  match c with
  | OK a => k a
  | Raise e => Raise e
  end.

#[export] Instance result_monad : Monad result :=
  {| ret := @OK; bind := @result_bind |}.

Definition eff_bind {E A B} (c : Eff E A) (k : A -> Eff E B) : Eff E B :=
  match c with
  | (ev, OK a) => let (ev', r) := k a in (ev ++ ev', r)
  | (ev, Raise e) => (ev, Raise e)
  end.

#[export] Instance eff_monad (E : Type) : Monad (Eff E) :=
  {| ret := fun A (a : A) => ([], OK a); bind := @eff_bind E |}.

(** Run a pure fallible computation inside [Eff]: no event. *)
Definition lift {E A} (c : result A) : Eff E A := ([], c).

(** Perform one event. *)
Definition emit {E} (e : E) : Eff E unit := ([e], OK tt).

Definition events {E A} (c : Eff E A) : list E := fst c.
Definition outcome {E A} (c : Eff E A) : result A := snd c.

(** [for x in xs: s = body x s], the loop state threaded by hand. *)
Fixpoint for_each {M} `{Monad M} {A S} (xs : list A) (body : A -> S -> M S) (s : S)
  : M S :=
  match xs with
  | [] => ret s
  | x :: xs' => s' <- body x s ;; for_each xs' body s'
  end.

(** Python's [range(a, b)] for [a <= b]. *)
Definition range (a b : nat) : list nat := seq a (b - a).

(** ** Python floats *)

Module PyFloat.

(** Conversion of an integer to binary64, round to nearest even. *)
Definition of_Z (z : Z) : float :=
  SF2Prim (binary_normalize prec emax z 0 false).

(** [a / b] on an integer and a constant: both operands converted, then one
    IEEE division.  (For operands below 2^53 in magnitude this is also
    Python's correctly rounded [int / int].) *)
Definition truediv (a b : Z) : float := PrimFloat.div (of_Z a) (of_Z b).

(** [int(x)]: truncation toward zero; infinities raise [OverflowError], NaN
    raises [ValueError]. *)
Definition to_int (x : float) : result Z :=
  match Prim2SF x with
  | S754_zero _ => OK 0%Z
  | S754_finite s m e =>
      let v := if (0 <=? e)%Z then (Z.pos m * 2 ^ e)%Z
               else (Z.pos m / 2 ^ (- e))%Z in
      OK (if s then (- v)%Z else v)
  | S754_infinity _ => Raise OverflowError
  | S754_nan => Raise ValueError
  end.

End PyFloat.

(** ** Confusion-matrix metrics *)

(** The confusion matrix as [computeMetrics] uses it: something indexed
    twice, rows first.  A numpy array of shape (r, c) is a list of [r] rows
    of length [c]. *)
Definition matrix := list (list Z).

Definition has_shape (m : matrix) (r c : nat) : Prop :=
  length m = r /\ Forall (fun row => length row = c) m.

(** [confusion[i][j]] for non-negative [i], [j]: the cell, or [IndexError]
    when the row or the column does not exist. *)
Definition lookup (confusion : matrix) (i j : nat) : result Z :=
  match nth_error confusion i with
  | None => Raise IndexError
  | Some row =>
      match nth_error row j with
      | None => Raise IndexError
      | Some c => OK c
      end
  end.

(** The same read, recorded: the event is the index pair asked for. *)
Definition getitem (confusion : matrix) (i j : nat) : Eff (nat * nat) Z :=
  emit (i, j) ;; lift (lookup confusion i j).

Definition computeMetrics (confusion : matrix) : Eff (nat * nat) (float * float) :=
  let meanSensibility := PyFloat.of_Z 0 in
  meanSensibility <-
    for_each (range 0 3) (fun i meanSensibility =>
      c <- getitem confusion i i ;;
      ret (PrimFloat.add meanSensibility (PyFloat.truediv c 100)))
      meanSensibility ;;
  let sum := PyFloat.of_Z 0 in
  sum <-
    for_each (range 0 3) (fun i sum =>
      for_each (range 0 3) (fun j sum =>
        if negb (Nat.eqb i j) then
          c <- getitem confusion i j ;;
          ret (PrimFloat.add sum (PyFloat.truediv c 300))
        else ret sum) sum) sum ;;
  let specificity := PrimFloat.sub (PyFloat.of_Z 1) sum in
  ret (meanSensibility, specificity).

(** ** Arrays *)

(** A 4-dimensional numpy array of counts, as [graycomatrix] returns it:
    its shape and its cells. *)
Record ndarray4 : Type := {
  shape4 : nat * nat * nat * nat;
  at4 : nat -> nat -> nat -> nat -> N
}.

Record ndarray2 : Type := {
  shape2 : nat * nat;
  at2 : nat -> nat -> N
}.

(** [glcm[:, :, i, j]] for non-negative [i], [j]: the 2-dimensional slice, or
    [IndexError] when [i] or [j] is outside the last two axes. *)
Definition slice (glcm : ndarray4) (i j : nat) : result ndarray2 :=
  let '(n0, n1, n2, n3) := shape4 glcm in
  if (i <? n2)%nat && (j <? n3)%nat then
    OK {| shape2 := (n0, n1); at2 := fun a b => at4 glcm a b i j |}
  else Raise IndexError.

(** [np.hstack] of a 2-dimensional array: its rows, one after the other.
    With no row there is nothing to concatenate and numpy raises. *)
Definition hstack {A} (rows : list (list A)) : result (list A) :=
  match rows with
  | [] => Raise ValueError
  | _ => OK (concat rows)
  end.

(** ** The imaging libraries *)

(** What [utils.py] imports from PIL, numpy and scikit-image.  Each call may
    raise.  [graycoprops] returns a 2-dimensional array of floats, given
    here by its rows. *)
Class ImagingLib : Type := {
  Image : Type;
  Pixels : Type;
  Image_open : option string -> result Image;
  ImageOps_equalize : Image -> result Image;
  Image_convert : Image -> string -> result Image;
  Image_quantize : Image -> nat -> result Image;
  Image_resize : Image -> nat * nat -> result Image;
  np_array_uint8 : Image -> result Pixels;
  graycomatrix : Pixels -> list Z -> list float -> nat -> result ndarray4;
  graycoprops : ndarray4 -> string -> result (list (list float));
  shannon_entropy : ndarray2 -> result float
}.

(** The shapes scikit-image documents: [graycomatrix] returns an array of
    shape (levels, levels, number of distances, number of angles), and
    [graycoprops] one value per distance and angle of the array it is
    given. *)
Record ImagingLibShapes `{ImagingLib} : Prop := {
  graycomatrix_shape :
    forall px ds angs levels g,
      graycomatrix px ds angs levels = OK g ->
      shape4 g = (levels, levels, length ds, length angs);
  graycoprops_shape :
    forall g prop rows,
      graycoprops g prop = OK rows ->
      length rows = snd (fst (shape4 g)) /\
      Forall (fun row => length row = snd (shape4 g)) rows
}.

Arguments ImagingLibShapes : clear implicits.

(** [cmath.pi]. *)
Definition pi : float := 0x1.921fb54442d18p+1%float.

Definition distances : list Z := [1; 2; 4; 8; 16]%Z.

Definition angles : list float :=
  [ PyFloat.of_Z 0;
    PrimFloat.div pi (PyFloat.of_Z 4);
    PrimFloat.div pi (PyFloat.of_Z 2);
    PrimFloat.div (PrimFloat.mul (PyFloat.of_Z 3) pi) (PyFloat.of_Z 4) ].

Section Features.

Context `{ImagingLib}.

Definition glcmEntropy (glcm : ndarray4) : result (list float) :=
  let entropy := [] in
  for_each (range 0 5) (fun i entropy =>
    for_each (range 0 4) (fun j entropy =>
      s <- slice glcm i j ;;
      h <- shannon_entropy s ;;
      ret (entropy ++ [h])) entropy) entropy.

Definition computeFeatures (image : Image) : result (list float) :=
  numpyImage <- np_array_uint8 image ;;
  glcm <- graycomatrix numpyImage distances angles 256 ;;
  contrast <- graycoprops glcm "contrast" ;;
  homogeneity <- graycoprops glcm "homogeneity" ;;
  entropy <- glcmEntropy glcm ;;
  numpyContrast <- hstack contrast ;;
  numpyHomogeneity <- hstack homogeneity ;;
  ret (numpyContrast ++ numpyHomogeneity ++ entropy).

Definition featuresSizes (image : Image) : result (list float) :=
  size128Image <- Image_resize image (128, 128)%nat ;;
  size64Image <- Image_resize image (64, 64)%nat ;;
  size32Image <- Image_resize image (32, 32)%nat ;;
  size128features <- computeFeatures size128Image ;;
  size64features <- computeFeatures size64Image ;;
  size32features <- computeFeatures size32Image ;;
  let features := size32features ++ size64features ++ size128features in
  ret features.

Definition featuresFile (path : option string) (image : option Image)
  : result (list float) :=
  image <- match image with
           | None => Image_open path
           | Some im => OK im
           end ;;
  equalizedImage <- ImageOps_equalize image ;;
  grayImage <- Image_convert equalizedImage "L" ;;
  quant16Image <- Image_quantize grayImage 16 ;;
  quant32Image <- Image_quantize grayImage 32 ;;
  features16 <- featuresSizes quant16Image ;;
  features32 <- featuresSizes quant32Image ;;
  let features := features16 ++ features32 in
  ret features.

End Features.

(** ** The dataset loader *)

(** An [os.DirEntry], as far as the loader looks at it. *)
Record DirEntry : Type := {
  path : string;
  is_file : bool
}.

(** [os.scandir] on the folder the program runs in. *)
Class FileSystem : Type := {
  scandir : string -> result (list DirEntry)
}.

(** What the loader does to the GUI object it is handed. *)
Inductive ScreenEvent : Type :=
| ProgressBar_value (v : Z)
| Update_idletasks
| Text_set (s : string).

(** [s.endswith(suffix)]. *)
Definition endswith (s suffix : string) : bool :=
  let n := String.length s in
  let m := String.length suffix in
  (m <=? n)%nat && String.eqb (substring (n - m) m s) suffix.

(** [str(n)] for a natural number. *)
Definition str (n : nat) : string := NilEmpty.string_of_uint (Nat.to_uint n).

(** [int((imgCount/400)*100)]. *)
Definition progress_value (imgCount : nat) : result Z :=
  PyFloat.to_int
    (PrimFloat.mul (PyFloat.truediv (Z.of_nat imgCount) 400) (PyFloat.of_Z 100)).

Section Loader.

Context `{ImagingLib} `{FileSystem}.

(** The state the two loops carry: [features], [types], [imgCount]. *)
Definition loader_state : Type := (list (list float) * list nat * nat)%type.

Definition featuresFolder : Eff ScreenEvent (list (list float) * list nat) :=
  let url := "imgs/"%string in
  let types := [] in
  let features := [] in
  let imgCount := 0%nat in
  '(features, types, imgCount) <-
    for_each (range 1 5) (fun i (st : loader_state) =>
      files <- lift (scandir (url ++ str i ++ "/")%string) ;;
      for_each files (fun file (st : loader_state) =>
        let '(features, types, imgCount) := st in
        if endswith (path file) ".png" && is_file file then
          f <- lift (featuresFile (Some (path file)) None) ;;
          let features := features ++ [f] in
          let types := types ++ [i] in
          let imgCount := (imgCount + 1)%nat in
          v <- lift (progress_value imgCount) ;;
          emit (ProgressBar_value v) ;;
          emit Update_idletasks ;;
          emit (Text_set ("Generaring features..." ++ str imgCount ++ "/400")) ;;
          ret (features, types, imgCount)
        else ret st) st)
      (features, types, imgCount) ;;
  ret (features, types).

End Loader.

(** * Vocabulary of the properties *)

(** ** Confusion-matrix metrics *)

(** The cell in row [i], column [j] of a matrix that has one. *)
Definition cell (m : matrix) (i j : nat) : Z := nth j (nth i m []) 0%Z.

(** A sum of floats, accumulated from 0 in list order. *)
Definition float_sum (xs : list float) : float :=
  fold_left PrimFloat.add xs (PyFloat.of_Z 0).

(** The index pairs (i, j) with i, j in [0,3) and i <> j, row by row. *)
Definition off_diagonal : list (nat * nat) :=
  filter (fun ij => negb (fst ij =? snd ij)) (list_prod (seq 0 3) (seq 0 3)).

(** The specificity as the specification words it: 1 minus the sum, over
    the off-diagonal cells, of each cell divided by 300. *)
Definition specificity_spec (m : matrix) : float :=
  PrimFloat.sub (PyFloat.of_Z 1)
    (float_sum (map (fun ij => PyFloat.truediv (cell m (fst ij) (snd ij)) 300)
                    off_diagonal)).

(** The diagonal cells of the first three classes, each divided by 100. *)
Definition sensibilities (m : matrix) : list float :=
  map (fun i => PyFloat.truediv (cell m i i) 100) (seq 0 3).

(** The mean sensibility as the specification words it: the average of
    those three quotients. *)
Definition mean_sensibility_spec (m : matrix) : float :=
  PrimFloat.div (float_sum (sensibilities m)) (PyFloat.of_Z 3).

(** ** The feature extractor *)

(** Gather [f x] for each [x], stopping at the first exception. *)
Fixpoint mapM {A B} (f : A -> result B) (xs : list A) : result (list B) :=
  match xs with
  | [] => OK []
  | x :: xs' => y <- f x ;; ys <- mapM f xs' ;; ret (y :: ys)
  end.

(** The (distance, angle) index pairs, distance first. *)
Definition slices : list (nat * nat) := list_prod (range 0 5) (range 0 4).

Section FeatureSpecs.

Context `{ImagingLib}.

(** The entropy of one slice of a GLCM. *)
Definition entropy_at (glcm : ndarray4) (i j : nat) : result float :=
  s <- slice glcm i j ;; shannon_entropy s.

(** No call of the library raises on an image already opened. *)
Record ImagingLibTotal : Prop := {
  equalize_total : forall im, exists im', ImageOps_equalize im = OK im';
  convert_total : forall im mode, exists im', Image_convert im mode = OK im';
  quantize_total : forall im colors, exists im', Image_quantize im colors = OK im';
  resize_total : forall im size, exists im', Image_resize im size = OK im';
  np_array_total : forall im, exists px, np_array_uint8 im = OK px;
  graycomatrix_total :
    forall px ds angs levels, exists g, graycomatrix px ds angs levels = OK g;
  graycoprops_total : forall g prop, exists rows, graycoprops g prop = OK rows;
  shannon_entropy_total : forall s, exists h, shannon_entropy s = OK h
}.

(** [block] is what one scale contributes: the image resized to
    [size] x [size], its GLCM, then 20 contrast values, 20 homogeneity
    values and 20 entropy values. *)
Definition scale_block (image : Image) (size : nat) (block : list float) : Prop :=
  exists resized px glcm contrast homogeneity entropy,
    Image_resize image (size, size) = OK resized /\
    np_array_uint8 resized = OK px /\
    graycomatrix px distances angles 256 = OK glcm /\
    graycoprops glcm "contrast" = OK contrast /\
    graycoprops glcm "homogeneity" = OK homogeneity /\
    glcmEntropy glcm = OK entropy /\
    length (concat contrast) = 20 /\
    length (concat homogeneity) = 20 /\
    length entropy = 20 /\
    block = concat contrast ++ concat homogeneity ++ entropy.

End FeatureSpecs.

Arguments ImagingLibTotal : clear implicits.

(** ** The dataset loader *)

(** The entries the loader processes: regular files whose path ends in
    [.png]. *)
Definition is_png (file : DirEntry) : bool :=
  endswith (path file) ".png" && is_file file.

Definition pngs (files : list DirEntry) : list DirEntry := filter is_png files.

(** The processed entries of the four class folders, each with the label of
    its folder, in the order the loader meets them. *)
Definition labelled (l1 l2 l3 l4 : list DirEntry) : list (nat * DirEntry) :=
  map (pair 1) (pngs l1) ++ map (pair 2) (pngs l2) ++
  map (pair 3) (pngs l3) ++ map (pair 4) (pngs l4).

(** The progress values among the events, in order. *)
Definition progress_values (evs : list ScreenEvent) : list Z :=
  flat_map (fun e => match e with ProgressBar_value v => [v] | _ => [] end) evs.

(** What the screen sees for the [k]-th processed file. *)
Definition file_events (k : nat) : list ScreenEvent :=
  match progress_value k with
  | OK v => [ProgressBar_value v; Update_idletasks;
             Text_set ("Generaring features..." ++ str k ++ "/400")]
  | Raise _ => []
  end.

(** The percentage of the count [k] is defined and within [0,100]. *)
Definition progress_in_range (k : nat) : bool :=
  match progress_value k with
  | OK v => (0 <=? v)%Z && (v <=? 100)%Z
  | Raise _ => false
  end.

(** The [k]-th value of [values] is the percentage of the count [k], for
    the counts 1 to [n]. *)
Definition progress_of_counts (n : nat) (values : list Z) : Prop :=
  Forall2 (fun k v => progress_value k = OK v) (seq 1 n) values.

Section LoaderSpecs.

Context `{ImagingLib} `{FileSystem}.

(** One processed file: the body of the inner loop on an entry that
    passes the test. *)
Definition visit (i : nat) (file : DirEntry) (st : loader_state)
  : Eff ScreenEvent loader_state :=
  let '(features, types, imgCount) := st in
  f <- lift (featuresFile (Some (path file)) None) ;;
  let features := features ++ [f] in
  let types := types ++ [i] in
  let imgCount := (imgCount + 1)%nat in
  v <- lift (progress_value imgCount) ;;
  emit (ProgressBar_value v) ;;
  emit Update_idletasks ;;
  emit (Text_set ("Generaring features..." ++ str imgCount ++ "/400")) ;;
  ret (features, types, imgCount).

(** One class folder: the body of the outer loop. *)
Definition scan (i : nat) (st : loader_state) : Eff ScreenEvent loader_state :=
  files <- lift (scandir ("imgs/" ++ str i ++ "/")%string) ;;
  for_each files (fun file st => if is_png file then visit i file st else ret st) st.

(** Extraction succeeds on each labelled entry, with these vectors. *)
Definition extracted (entries : list (nat * DirEntry)) (vs : list (list float))
  : Prop :=
  Forall2 (fun e v => featuresFile (Some (path (snd e))) None = OK v) entries vs.

(** The progress values the loader reports, in order. *)
Definition reported_progress : list Z :=
  progress_values (events featuresFolder).

(** What the loops keep true of the screen and of their state. *)
Definition loader_inv (evs : list ScreenEvent) (st : loader_state) : Prop :=
  let '(features, types, imgCount) := st in
  length features = imgCount /\ length types = imgCount /\
  progress_of_counts imgCount (progress_values evs).

End LoaderSpecs.

(** ** An executable instance: images of a single grey level

    A small implementation of the library interface on solid-colour
    images, and three folder trees, used to run the code above on concrete
    inputs.  A solid image has contrast 0 and homogeneity 1 at every
    distance and angle; its co-occurrence counts sit in one cell.  The
    entropy is a stand-in (the true one needs a logarithm): the trace of
    the slice, which tells the three scales apart. *)

Module Solid.

Record image : Type := {
  width : nat;
  height : nat;
  level : nat
}.

Definition open (p : option string) : result image :=
  match p with
  | None => Raise (LibraryError "AttributeError")
  | Some s =>
      if endswith s "broken.png" then Raise (LibraryError "UnidentifiedImageError")
      else OK {| width := 8; height := 8; level := String.length s |}
  end.

Definition quantize (im : image) (colors : nat) : result image :=
  let step := (256 / colors)%nat in
  OK {| width := width im; height := height im;
        level := (level im / step * step)%nat |}.

Definition resize (im : image) (size : nat * nat) : result image :=
  OK {| width := fst size; height := snd size; level := level im |}.

Definition comatrix (px : image) (ds : list Z) (angs : list float) (levels : nat)
  : result ndarray4 :=
  OK {| shape4 := (levels, levels, length ds, length angs);
        at4 := fun i j _ _ =>
                 if (i =? level px)%nat && (j =? level px)%nat
                 then (N.of_nat (width px) * N.of_nat (height px))%N else 0%N |}.

Definition coprops (g : ndarray4) (prop : string) : result (list (list float)) :=
  let v := if String.eqb prop "homogeneity" then PyFloat.of_Z 1 else PyFloat.of_Z 0 in
  OK (repeat (repeat v (snd (shape4 g))) (snd (fst (shape4 g)))).

Definition trace (s : ndarray2) : result float :=
  OK (PyFloat.of_Z (Z.of_N
    (fold_left (fun acc i => (acc + at2 s i i)%N) (seq 0 (fst (shape2 s))) 0%N))).

#[export] Instance lib : ImagingLib := {|
  Image := image;
  Pixels := image;
  Image_open := open;
  ImageOps_equalize := fun im => OK im;
  Image_convert := fun im _ => OK im;
  Image_quantize := quantize;
  Image_resize := resize;
  np_array_uint8 := fun im => OK im;
  graycomatrix := comatrix;
  graycoprops := coprops;
  shannon_entropy := trace
|}.

Definition file (name : string) : DirEntry := {| path := name; is_file := true |}.
Definition folder (name : string) : DirEntry := {| path := name; is_file := false |}.

Definition listing (d1 d2 d3 d4 : list DirEntry) (p : string)
  : result (list DirEntry) :=
  if String.eqb p "imgs/1/" then OK d1
  else if String.eqb p "imgs/2/" then OK d2
  else if String.eqb p "imgs/3/" then OK d3
  else if String.eqb p "imgs/4/" then OK d4
  else Raise (LibraryError "FileNotFoundError").

(** Four images, a text file and a sub-folder whose name ends in [.png]. *)
Definition small_tree : FileSystem := {|
  scandir := listing
    [file "imgs/1/a.png"; file "imgs/1/notes.txt"; folder "imgs/1/old.png"]
    [file "imgs/2/b.png"]
    []
    [file "imgs/4/c.png"; file "imgs/4/d.png"]
|}.

(** The same tree with an unreadable image in folder 2. *)
Definition broken_tree : FileSystem := {|
  scandir := listing
    [file "imgs/1/a.png"; file "imgs/1/notes.txt"; folder "imgs/1/old.png"]
    [file "imgs/2/b.png"; file "imgs/2/broken.png"; file "imgs/2/e.png"]
    []
    [file "imgs/4/c.png"; file "imgs/4/d.png"]
|}.

(** 404 images, all in folder 1. *)
Definition crowded_tree : FileSystem := {|
  scandir := listing
    (map (fun k => file ("imgs/1/" ++ str k ++ ".png")) (seq 0 404))
    [] [] []
|}.

Definition grey : image := {| width := 200; height := 100; level := 77 |}.

End Solid.

(** Two 4-class confusion matrices that differ only in the row and the
    column of class 4, and the confusion matrix of a perfect 3-class run on
    100 samples per class. *)
Definition confusion_a : matrix :=
  [[20; 1; 2; 0]; [3; 19; 0; 1]; [0; 0; 25; 3]; [1; 2; 3; 20]]%Z.
Definition confusion_b : matrix :=
  [[20; 1; 2; 7]; [3; 19; 0; 0]; [0; 0; 25; 9]; [5; 5; 5; 5]]%Z.
Definition confusion_perfect : matrix :=
  [[100; 0; 0]; [0; 100; 0]; [0; 0; 100]]%Z.

(** The features of the sample image, one scale and whole, and of the small
    tree, as the code computes them. *)
Definition grey_block : list float :=
  Eval vm_compute in
    match @computeFeatures Solid.lib Solid.grey with OK v => v | Raise _ => [] end.

Definition grey_features : list float :=
  Eval vm_compute in
    match @featuresFile Solid.lib None (Some Solid.grey) with
    | OK v => v
    | Raise _ => []
    end.

Definition small_features : list (list float) :=
  Eval vm_compute in
    match outcome (@featuresFolder Solid.lib Solid.small_tree) with
    | OK (features, _) => features
    | Raise _ => []
    end.

(** * The trainer and the saved model *)

(** ** The learning library *)

(** What [utils.py] imports from scikit-learn, the clock, and how Python
    prints a matrix and a float inside an f-string.  [fit] changes the
    classifier it is given; the changed classifier is what it returns here.
    [clock n] is what the [n]-th call of [time()] returns. *)
Class Learner : Type := {
  Classifier : Type;
  train_test_split :
    list (list float) -> list nat -> float ->
    result (list (list float) * list (list float) * list nat * list nat);
  SVC : string -> bool -> string -> float -> result Classifier;
  fit : Classifier -> list (list float) -> list nat -> result Classifier;
  predict : Classifier -> list (list float) -> result (list nat);
  accuracy_score : list nat -> list nat -> result float;
  confusion_matrix : list nat -> list nat -> result matrix;
  clock : nat -> float;
  format_matrix : matrix -> string;
  format_float : float -> string
}.

(** What the trainer does to the GUI object: what the loader does, and the
    removal of the progress bar. *)
Inductive TrainerEvent : Type :=
| Screen (e : ScreenEvent)
| ProgressBar_destroy.

(** A computation of the loader, run by the trainer on the same screen. *)
Definition on_screen {A} (c : Eff ScreenEvent A) : Eff TrainerEvent A :=
  (map Screen (events c), outcome c).

(** The line feed of ["\n"]. *)
Definition nl : string := String (ascii_of_nat 10) EmptyString.

(** [.2] and [1.0]. *)
Definition test_size : float := 0x1.999999999999ap-3%float.
Definition C_one : float := 0x1p+0%float.

Section Trainer.

Context `{ImagingLib} `{FileSystem} `{Learner}.

Definition trainModel : Eff TrainerEvent Classifier :=
  let start := clock 0 in
  '(features, types) <- on_screen featuresFolder ;;
  emit ProgressBar_destroy ;;
  '(X_train, x_test, y_train, y_test) <-
    lift (train_test_split features types test_size) ;;
  classifier <- lift (SVC "linear" true "scale" C_one) ;;
  emit (Screen (Text_set "Training...")) ;;
  classifier <- lift (fit classifier X_train y_train) ;;
  y_prediction <- lift (predict classifier x_test) ;;
  accuracy <- lift (accuracy_score y_test y_prediction) ;;
  confusion <- lift (confusion_matrix y_test y_prediction) ;;
  '(meanSensibility, specificity) <- lift (outcome (computeMetrics confusion)) ;;
  let end_ := clock 1 in
  let totalTime := PrimFloat.sub end_ start in
  let info := ""%string in
  let info := (info ++ format_matrix confusion ++ nl)%string in
  let info := (info ++ nl ++ "Accuracy: " ++ format_float accuracy)%string in
  let info :=
    (info ++ nl ++ "Mean Sensibility: " ++ format_float meanSensibility ++ nl)%string in
  let info := (info ++ "Specificity: " ++ format_float specificity)%string in
  let info := (info ++ nl ++ "Time: " ++ format_float totalTime)%string in
  emit (Screen (Text_set info)) ;;
  ret classifier.

End Trainer.

(** ** The saved model *)

(** [joblib.dump] and [joblib.load] on the files of the working folder:
    [dump] changes the files, [load] reads them. *)
Class Joblib (Model : Type) : Type := {
  Files : Type;
  dump : Model -> string -> Files -> result Files;
  load : string -> Files -> result Model
}.

Section Persistence.

Context {Model : Type} `{Joblib Model}.

Definition loadModel (files : Files) : result Model :=
  load "model.joblib" files.

Definition saveModel (model : Model) (files : Files) : result Files :=
  dump model "model.joblib" files.

End Persistence.

(** ** Vocabulary of the further properties *)

(** The reads [(0,0)], [(1,1)], ... of the first [n] diagonal cells. *)
Definition diagonal_reads (n : nat) : list (nat * nat) :=
  map (fun i => (i, i)) (seq 0 n).

(** A folder listing reduced to the entries the loader processes. *)
Definition listing_pngs (r : result (list DirEntry)) : result (list DirEntry) :=
  match r with
  | OK files => OK (pngs files)
  | Raise e => Raise e
  end.

(** The processed entries of the class folders 1 to [n], when folder [i]
    lists [ls i]. *)
Definition entries_upto (ls : nat -> list DirEntry) (n : nat)
  : list (nat * DirEntry) :=
  flat_map (fun i => map (pair i) (pngs (ls i))) (seq 1 n).

(** The exact percentage of [k] files out of 400, rounded down. *)
Definition exact_percent (k : nat) : Z := Z.of_nat (k / 4).

(** The counts at which the float percentage falls one short of the exact
    one. *)
Definition short_counts : list nat := [116; 228; 232].

(** The percentage of the count [k] is the exact one, or one less at the
    counts of [short_counts], and does not decrease at the next count. *)
Definition percent_checked (k : nat) : bool :=
  match progress_value k, progress_value (S k) with
  | OK v, OK v' =>
      (if existsb (Nat.eqb k) short_counts
       then (v =? exact_percent k - 1)%Z else (v =? exact_percent k)%Z)
      && (v <=? v')%Z
  | _, _ => false
  end.

(** The three screen events of the trainer after a successful load, the
    last one showing the text [info]. *)
Definition training_events (info : string) : list TrainerEvent :=
  [ProgressBar_destroy; Screen (Text_set "Training..."); Screen (Text_set info)].

(** ** A stand-in learner, saved-model store and more folder trees

    A learner that predicts the first training label, a split that puts
    every fifth sample in the test part, and the confusion matrix over the
    labels that occur, to run the trainer on concrete inputs. *)

Module Bench.

Fixpoint pick {A} (keep : nat -> bool) (k : nat) (xs : list A) : list A :=
  match xs with
  | [] => []
  | x :: xs' => if keep k then x :: pick keep (S k) xs' else pick keep (S k) xs'
  end.

Definition in_test (k : nat) : bool := (k mod 5 =? 0)%nat.

Definition split (X : list (list float)) (y : list nat) (size : float)
  : result (list (list float) * list (list float) * list nat * list nat) :=
  match X with
  | [] => Raise ValueError
  | _ => OK (pick (fun k => negb (in_test k)) 0 X, pick in_test 0 X,
             pick (fun k => negb (in_test k)) 0 y, pick in_test 0 y)
  end.

Definition labels_of (ys : list nat) : list nat :=
  filter (fun l => existsb (Nat.eqb l) ys) (seq 0 (S (list_max ys))).

Definition confusion (y_true y_pred : list nat) : result matrix :=
  let labels := labels_of (y_true ++ y_pred) in
  OK (map (fun a =>
        map (fun b =>
          Z.of_nat (length (filter (fun p => (fst p =? a)%nat && (snd p =? b)%nat)
                                   (combine y_true y_pred))))
            labels) labels).

Definition accuracy (y_true y_pred : list nat) : result float :=
  OK (PyFloat.truediv
        (Z.of_nat (length (filter (fun p => (fst p =? snd p)%nat)
                                  (combine y_true y_pred))))
        (Z.of_nat (length y_true))).

Definition first_label (c : option nat) (X : list (list float)) (y : list nat)
  : result (option nat) :=
  match y with
  | [] => Raise ValueError
  | l :: _ => OK (Some l)
  end.

Definition constant (c : option nat) (X : list (list float)) : result (list nat) :=
  match c with
  | None => Raise (LibraryError "NotFittedError")
  | Some l => OK (map (fun _ => l) X)
  end.

Definition show_float (x : float) : string :=
  match PyFloat.to_int x with
  | OK z => str (Z.to_nat z)
  | Raise _ => "nan"
  end.

Definition show_matrix (m : matrix) : string :=
  String.concat ";"
    (map (fun row => String.concat "," (map (fun z => str (Z.to_nat z)) row)) m).

#[export] Instance learner : Learner := {|
  Classifier := option nat;
  train_test_split := split;
  SVC := fun _ _ _ _ => OK None;
  fit := first_label;
  predict := constant;
  accuracy_score := accuracy;
  confusion_matrix := confusion;
  clock := fun n => PyFloat.of_Z (7 * Z.of_nat n);
  format_matrix := show_matrix;
  format_float := show_float
|}.

(** Saved models as a list of named files, the newest first. *)
Definition lookup_file {Model} (name : string) (files : list (string * Model))
  : result Model :=
  match find (fun f => String.eqb (fst f) name) files with
  | Some f => OK (snd f)
  | None => Raise (LibraryError "FileNotFoundError")
  end.

#[export] Instance store (Model : Type) : Joblib Model := {|
  Files := list (string * Model);
  dump := fun model name files => OK ((name, model) :: files);
  load := lookup_file
|}.

(** Five images in each class folder. *)
Definition class_tree : FileSystem := {|
  scandir := Solid.listing
    (map (fun k => Solid.file ("imgs/1/" ++ str k ++ ".png")) (seq 0 5))
    (map (fun k => Solid.file ("imgs/2/" ++ str k ++ ".png")) (seq 0 5))
    (map (fun k => Solid.file ("imgs/3/" ++ str k ++ ".png")) (seq 0 5))
    (map (fun k => Solid.file ("imgs/4/" ++ str k ++ ".png")) (seq 0 5))
|}.

(** The small tree without its text file and sub-folder. *)
Definition clean_tree : FileSystem := {|
  scandir := Solid.listing
    [Solid.file "imgs/1/a.png"] [Solid.file "imgs/2/b.png"] []
    [Solid.file "imgs/4/c.png"; Solid.file "imgs/4/d.png"]
|}.

(** No image anywhere: a text file, an upper-case extension and a folder. *)
Definition empty_tree : FileSystem := {|
  scandir := Solid.listing
    [Solid.file "imgs/1/notes.txt"] [Solid.file "imgs/2/B.PNG"] []
    [Solid.folder "imgs/4/old.png"]
|}.

(** The small tree without its folder 3. *)
Definition missing_tree : FileSystem := {|
  scandir := fun p =>
    if String.eqb p "imgs/3/" then Raise (LibraryError "FileNotFoundError")
    else @scandir Solid.small_tree p
|}.

End Bench.


(** The screen events [evs] are those of [n] processed files, each with its
    percentage. *)
Definition loader_trace (n : nat) (evs : list ScreenEvent) : Prop :=
  evs = flat_map file_events (seq 1 n) /\
  forall k, 1 <= k <= n -> exists z, progress_value k = OK z.

(** A GLCM for 3 distances and 4 angles, and two GLCMs for 6 distances and
    5 angles that differ outside the first 5 and 4. *)
Definition short_glcm : ndarray4 :=
  {| shape4 := (256, 256, 3, 4); at4 := fun i j d a => N.of_nat (d + a) |}.
Definition wide_glcm_a : ndarray4 :=
  {| shape4 := (256, 256, 6, 5); at4 := fun i j d a => N.of_nat (d + a) |}.
Definition wide_glcm_b : ndarray4 :=
  {| shape4 := (256, 256, 6, 5);
     at4 := fun i j d a => if (d <? 5) && (a <? 4) then N.of_nat (d + a) else 99%N |}.


(** The summary text of the trainer. *)
Definition summary `{Learner} (confusion : matrix)
    (accuracy meanSensibility specificity totalTime : float) : string :=
  ("" ++ format_matrix confusion ++ nl
   ++ nl ++ "Accuracy: " ++ format_float accuracy
   ++ nl ++ "Mean Sensibility: " ++ format_float meanSensibility ++ nl
   ++ "Specificity: " ++ format_float specificity
   ++ nl ++ "Time: " ++ format_float totalTime)%string.

(** What joblib promises: a file written by [dump] is read back by [load]
    as the object that was written. *)
Definition JoblibRoundTrip {Model} `{Joblib Model} : Prop :=
  forall model name files files',
    dump model name files = OK files' -> load name files' = OK model.
(** The entries of the four class folders that pass the test [keep], each
    with the number of its folder, folder 1 first and in listing order
    within a folder. *)
Definition entries_where (keep : DirEntry -> bool) (l1 l2 l3 l4 : list DirEntry)
  : list (nat * DirEntry) :=
  map (pair 1) (filter keep l1) ++ map (pair 2) (filter keep l2) ++
  map (pair 3) (filter keep l3) ++ map (pair 4) (filter keep l4).

(** ** The confusion matrix of the held-out part *)

(** The labels that occur in [ys], each once, in increasing order. *)
Definition class_labels (ys : list nat) : list nat :=
  filter (fun l => existsb (Nat.eqb l) ys) (seq 0 (S (list_max ys))).

(** scikit-learn's [confusion_matrix(y_true, y_pred)] as its documentation
    gives it when no labels are passed, which is how [trainModel] calls it:
    the labels are those that occur at least once in [y_true] or [y_pred],
    sorted, and the cell in row i and column j is the number of samples
    whose true label is the i-th label and whose predicted label is the
    j-th. *)
Definition confusion_of (y_true y_pred : list nat) : matrix :=
  let labels := class_labels (y_true ++ y_pred) in
  map (fun a =>
    map (fun b =>
      Z.of_nat (length (filter (fun p => (fst p =? a)%nat && (snd p =? b)%nat)
                               (combine y_true y_pred))))
        labels) labels.

(** * Properties *)

Arguments PyFloat.of_Z : simpl never.
Arguments PyFloat.truediv : simpl never.

(** ** Confusion-matrix metrics *)

Lemma lookup_cell m r c i j :
  has_shape m r c -> i < r -> j < c -> lookup m i j = OK (cell m i j).
Proof.
  intros [Hr Hc] Hi Hj. unfold lookup, cell.
  destruct (nth_error m i) as [row|] eqn:Hrow.
  - assert (Hlen : length row = c).
    { rewrite Forall_forall in Hc. apply Hc. eapply nth_error_In; eauto. }
    rewrite (nth_error_nth _ _ [] Hrow).
    destruct (nth_error row j) as [z|] eqn:Hz.
    + now rewrite (nth_error_nth _ _ 0%Z Hz).
    + apply nth_error_None in Hz. lia.
  - apply nth_error_None in Hrow. lia.
Qed.

Lemma lookup_OK_bounds m r c i j z :
  has_shape m r c -> lookup m i j = OK z -> i < r /\ j < c.
Proof.
  intros [Hr Hc] H. unfold lookup in H.
  destruct (nth_error m i) as [row|] eqn:Hrow; [|discriminate].
  destruct (nth_error row j) as [z'|] eqn:Hz; [|discriminate].
  assert (Hlen : length row = c).
  { rewrite Forall_forall in Hc. apply Hc. eapply nth_error_In; eauto. }
  split.
  - rewrite <- Hr. apply nth_error_Some. congruence.
  - rewrite <- Hlen. apply nth_error_Some. congruence.
Qed.

Lemma lookup_Raise m i j e : lookup m i j = Raise e -> e = IndexError.
Proof.
  unfold lookup. destruct (nth_error m i) as [row|]; [|congruence].
  destruct (nth_error row j); congruence.
Qed.

(** Unfold the two loops of [computeMetrics] down to its nine reads. *)
Ltac metrics_unfold :=
  unfold computeMetrics, getitem, events, outcome;
  cbn [range seq Nat.sub for_each];
  cbn [bind ret eff_monad eff_bind emit lift Nat.eqb negb app fst snd].

(** Case analysis on the reads, outermost first. *)
Ltac metrics_cases :=
  repeat match goal with
         | |- context [lookup ?m ?i ?j] =>
             let E := fresh "E" in
             destruct (lookup m i j) eqn:E;
             cbn [bind ret eff_monad eff_bind emit lift Nat.eqb negb app fst snd]
         end.

(** On a matrix of at least 3 rows and 3 columns the run is the nine reads
    and the two sums, in this order. *)
Lemma computeMetrics_3x3 m r c :
  has_shape m r c -> 3 <= r -> 3 <= c ->
  computeMetrics m =
    ([(0, 0); (1, 1); (2, 2);
      (0, 1); (0, 2); (1, 0); (1, 2); (2, 0); (2, 1)],
     OK (float_sum (sensibilities m), specificity_spec m)).
Proof.
  intros Hs Hr Hc. metrics_unfold.
  rewrite !(lookup_cell Hs) by lia.
  reflexivity.
Qed.

(** Two floats with different IEEE decodings are different. *)
Lemma float_neq (x y : float) : Prim2SF x <> Prim2SF y -> x <> y.
Proof. intros H E. apply H. now rewrite E. Qed.

(** The value [computeMetrics] reports as mean sensibility is not, in
    general, the average of the three diagonal cells each divided by
    100. *)
Lemma computeMetrics_mean_not_average :
  ~ (forall m ms sp,
        outcome (computeMetrics m) = OK (ms, sp) -> ms = mean_sensibility_spec m).
Proof.
  intros H.
  specialize (H confusion_perfect (PyFloat.of_Z 3) (PyFloat.of_Z 1) eq_refl).
  revert H. apply float_neq. vm_compute. discriminate.
Qed.


(** What the loop of [computeMetrics] adds up: on a confusion matrix with
    at least 3 rows and 3 columns the value reported is the sum, accumulated
    from 0 in index order, of the first three diagonal cells each divided by
    100, with no division by the number of classes. *)
Theorem computeMetrics_mean_sensibility m r c :
  has_shape m r c -> 3 <= r -> 3 <= c ->
  exists sp,
    outcome (computeMetrics m) = OK (float_sum (sensibilities m), sp) /\
    float_sum (sensibilities m) =
      PrimFloat.add
        (PrimFloat.add
           (PrimFloat.add (PyFloat.of_Z 0) (PyFloat.truediv (cell m 0 0) 100))
           (PyFloat.truediv (cell m 1 1) 100))
        (PyFloat.truediv (cell m 2 2) 100).
Proof.
  intros Hs Hr Hc. exists (specificity_spec m).
  rewrite (computeMetrics_3x3 Hs Hr Hc). split; reflexivity.
Qed.

(** That sum on the perfect 3-class matrix. *)
Lemma computeMetrics_mean_sensibility_witness :
  exists sp,
    outcome (computeMetrics confusion_perfect)
      = OK (float_sum (sensibilities confusion_perfect), sp) /\
    float_sum (sensibilities confusion_perfect) =
      PrimFloat.add
        (PrimFloat.add
           (PrimFloat.add (PyFloat.of_Z 0)
              (PyFloat.truediv (cell confusion_perfect 0 0) 100))
           (PyFloat.truediv (cell confusion_perfect 1 1) 100))
        (PyFloat.truediv (cell confusion_perfect 2 2) 100).
Proof.
  apply (@computeMetrics_mean_sensibility confusion_perfect 3 3).
  - split; [reflexivity | repeat constructor].
  - lia.
  - lia.
Defined.

(** C5: on a confusion matrix with at least 3 rows and 3 columns the
    reported specificity is 1 minus the sum, over the cells (i, j) with
    i <> j and i, j in [0,3), of the cell divided by 300. *)
Theorem computeMetrics_specificity m r c :
  has_shape m r c -> 3 <= r -> 3 <= c ->
  exists ms, outcome (computeMetrics m) = OK (ms, specificity_spec m).
Proof.
  intros Hs Hr Hc. exists (float_sum (sensibilities m)).
  now rewrite (computeMetrics_3x3 Hs Hr Hc).
Qed.

(** C5 on a 4-class matrix. *)
Lemma computeMetrics_specificity_witness :
  exists ms, outcome (computeMetrics confusion_a) = OK (ms, specificity_spec confusion_a).
Proof.
  apply (@computeMetrics_specificity confusion_a 4 4).
  - split; [reflexivity | repeat constructor].
  - lia.
  - lia.
Defined.

(** The index safety of [computeMetrics] on the matrix alone: it asks
    only for cells (i, j) with i, j < 3.  On a
    matrix of shape (r, c) with r, c >= 3 every cell asked for exists and
    the metrics are returned; with r < 3 or c < 3 the call raises
    [IndexError] and returns nothing. *)
Theorem computeMetrics_index_safety m r c :
  has_shape m r c ->
  Forall (fun ij => fst ij < 3 /\ snd ij < 3) (events (computeMetrics m)) /\
  (3 <= r -> 3 <= c ->
   Forall (fun ij => fst ij < r /\ snd ij < c) (events (computeMetrics m)) /\
   exists v, outcome (computeMetrics m) = OK v) /\
  (r < 3 \/ c < 3 -> outcome (computeMetrics m) = Raise IndexError).
Proof.
  intros Hs. split; [|split].
  - metrics_unfold. metrics_cases; repeat constructor.
  - intros Hr Hc. rewrite (computeMetrics_3x3 Hs Hr Hc). split.
    + repeat constructor; cbn; lia.
    + eexists. reflexivity.
  - intros Hsmall. metrics_unfold.
    metrics_cases;
      repeat match goal with
             | E : lookup _ _ _ = Raise _ |- _ => apply lookup_Raise in E; subst
             end;
      try reflexivity.
    exfalso.
    match goal with
    | E : lookup m 2 2 = OK _ |- _ => pose proof (@lookup_OK_bounds _ _ _ _ _ _ Hs E)
    end.
    lia.
Qed.

(** The index safety on a 4-class matrix. *)
Lemma computeMetrics_index_safety_witness :
  Forall (fun ij => fst ij < 3 /\ snd ij < 3) (events (computeMetrics confusion_a)) /\
  (3 <= 4 -> 3 <= 4 ->
   Forall (fun ij => fst ij < 4 /\ snd ij < 4) (events (computeMetrics confusion_a)) /\
   exists v, outcome (computeMetrics confusion_a) = OK v) /\
  (4 < 3 \/ 4 < 3 -> outcome (computeMetrics confusion_a) = Raise IndexError).
Proof.
  apply (@computeMetrics_index_safety confusion_a 4 4).
  split; [reflexivity | repeat constructor].
Defined.

Lemma class_labels_confusion_shape y_true y_pred :
  has_shape (confusion_of y_true y_pred)
    (length (class_labels (y_true ++ y_pred)))
    (length (class_labels (y_true ++ y_pred))).
Proof.
  unfold confusion_of. split.
  - apply length_map.
  - apply Forall_forall. intros row Hrow.
    apply in_map_iff in Hrow. destruct Hrow as (a & <- & _).
    apply length_map.
Qed.

(** C9 (as stated, refuted): a held-out part with a single class, both
    samples of class 1, predicted as classes 2 and 3, has a 3 x 3 confusion
    matrix, and [computeMetrics] returns metrics for it. *)
Lemma computeMetrics_one_class_returns :
  ~ (forall y_test y_pred,
        length (class_labels y_test) < 3 ->
        outcome (computeMetrics (confusion_of y_test y_pred)) = Raise IndexError).
Proof.
  intros Hclaim.
  assert (Hfew : length (class_labels [1; 1]) < 3) by (cbn; lia).
  specialize (Hclaim [1; 1] [2; 3] Hfew).
  vm_compute in Hclaim. discriminate.
Qed.

(** C9 (amended): [computeMetrics] asks only for cells (i, j) with
    i, j < 3; on a matrix of shape (r, c) with r, c >= 3 every cell asked
    for exists and the metrics are returned; with r < 3 or c < 3 the call
    raises [IndexError] and returns nothing.  The confusion matrix of the
    held-out part is that small exactly when fewer than 3 distinct labels
    occur among its true and its predicted labels taken together. *)
Theorem computeMetrics_index_safety_classes :
  (forall m r c,
      has_shape m r c ->
      Forall (fun ij => fst ij < 3 /\ snd ij < 3) (events (computeMetrics m)) /\
      (3 <= r -> 3 <= c ->
       Forall (fun ij => fst ij < r /\ snd ij < c) (events (computeMetrics m)) /\
       exists v, outcome (computeMetrics m) = OK v) /\
      (r < 3 \/ c < 3 -> outcome (computeMetrics m) = Raise IndexError)) /\
  (forall y_test y_pred,
      has_shape (confusion_of y_test y_pred)
        (length (class_labels (y_test ++ y_pred)))
        (length (class_labels (y_test ++ y_pred))) /\
      (length (class_labels (y_test ++ y_pred)) < 3 ->
       outcome (computeMetrics (confusion_of y_test y_pred)) = Raise IndexError) /\
      (3 <= length (class_labels (y_test ++ y_pred)) ->
       exists v, outcome (computeMetrics (confusion_of y_test y_pred)) = OK v)).
Proof.
  split.
  - intros m r c Hs. split; [|split].
    + metrics_unfold. metrics_cases; repeat constructor.
    + intros Hr Hc. rewrite (computeMetrics_3x3 Hs Hr Hc). split.
      * repeat constructor; cbn; lia.
      * eexists. reflexivity.
    + intros Hsmall. metrics_unfold.
      metrics_cases;
        repeat match goal with
               | E : lookup _ _ _ = Raise _ |- _ => apply lookup_Raise in E; subst
               end;
        try reflexivity.
      exfalso.
      match goal with
      | E : lookup m 2 2 = OK _ |- _ =>
          pose proof (@lookup_OK_bounds _ _ _ _ _ _ Hs E)
      end.
      lia.
  - intros y_test y_pred.
    pose proof (class_labels_confusion_shape y_test y_pred) as Hs.
    split; [exact Hs|]. split.
    + intros Hfew. metrics_unfold.
      metrics_cases;
        repeat match goal with
               | E : lookup _ _ _ = Raise _ |- _ => apply lookup_Raise in E; subst
               end;
        try reflexivity.
      exfalso.
      match goal with
      | E : lookup _ 2 2 = OK _ |- _ =>
          pose proof (@lookup_OK_bounds _ _ _ _ _ _ Hs E)
      end.
      lia.
    + intros Hmany. rewrite (computeMetrics_3x3 Hs Hmany Hmany).
      eexists. reflexivity.
Qed.

(** C10: two confusion matrices that agree on every cell (i, j) with
    i, j < 3 give the same run of [computeMetrics]: the same reads and the
    same (mean sensibility, specificity) or the same exception.  The row and
    the column of class 4 are never looked at. *)
Theorem computeMetrics_top_left m1 m2 :
  (forall i j, i < 3 -> j < 3 -> lookup m1 i j = lookup m2 i j) ->
  computeMetrics m1 = computeMetrics m2 /\
  outcome (computeMetrics m1) = outcome (computeMetrics m2).
Proof.
  intros Hagree.
  assert (E : computeMetrics m1 = computeMetrics m2).
  { metrics_unfold. rewrite !Hagree by lia. reflexivity. }
  split; [exact E | now rewrite E].
Qed.

(** C10 on two matrices that differ in the row and column of class 4. *)
Lemma computeMetrics_top_left_witness :
  computeMetrics confusion_a = computeMetrics confusion_b /\
  outcome (computeMetrics confusion_a) = outcome (computeMetrics confusion_b).
Proof.
  apply (@computeMetrics_top_left confusion_a confusion_b).
  intros i j Hi Hj.
  destruct i as [|[|[|i]]]; [ | | | lia];
    (destruct j as [|[|[|j]]]; [ | | | lia]); reflexivity.
Defined.

(** ** Loops that append one value per iteration *)

Lemma bind_OK {A B} (c : result A) (k : A -> result B) b :
  bind c k = OK b -> exists a, c = OK a /\ k a = OK b.
Proof. destruct c as [a|e]; cbn; [eauto | discriminate]. Qed.

Lemma bind_assoc {A B C} (c : result A) (k : A -> result B) (k' : B -> result C) :
  bind (bind c k) k' = bind c (fun a => bind (k a) k').
Proof. now destruct c. Qed.

(** Split a successful chain of binds into its steps. *)
Ltac bind_inv H :=
  repeat (let a := fresh "a" in
          let Ha := fresh "H" a in
          apply bind_OK in H; destruct H as (a & Ha & H));
  cbn [ret result_monad] in H.

Lemma for_each_ext {A S} (body body' : A -> S -> result S) xs s :
  (forall x s, body x s = body' x s) ->
  for_each xs body s = for_each xs body' s.
Proof.
  intros E. revert s. induction xs as [|x xs IH]; intros s; cbn; [reflexivity|].
  rewrite E. destruct (body' x s); cbn; auto.
Qed.

Lemma mapM_app {A B} (f : A -> result B) xs xs' :
  mapM f (xs ++ xs') = (ys <- mapM f xs ;; ys' <- mapM f xs' ;; ret (ys ++ ys')).
Proof.
  induction xs as [|x xs IH]; cbn.
  - now destruct (mapM f xs').
  - destruct (f x); cbn; [|reflexivity]. rewrite IH.
    destruct (mapM f xs); cbn; [|reflexivity].
    now destruct (mapM f xs').
Qed.

Lemma mapM_map {A B C} (g : A -> B) (f : B -> result C) xs :
  mapM f (map g xs) = mapM (fun x => f (g x)) xs.
Proof.
  induction xs as [|x xs IH]; cbn; [reflexivity|]. now rewrite IH.
Qed.

(** A loop appending [f x] for each [x] gathers [mapM f xs]. *)
Lemma for_each_append {A B} (f : A -> result B) xs acc :
  for_each xs (fun x acc => y <- f x ;; ret (acc ++ [y])) acc
  = (ys <- mapM f xs ;; ret (acc ++ ys)).
Proof.
  revert acc. induction xs as [|x xs IH]; intros acc; cbn.
  - now rewrite app_nil_r.
  - destruct (f x) as [y|e]; cbn; [|reflexivity].
    rewrite IH. destruct (mapM f xs); cbn; [|reflexivity].
    now rewrite <- app_assoc.
Qed.

(** Two nested appending loops gather the product of their ranges, outer
    index first. *)
Lemma for_each_append2 {A A' B} (f : A -> A' -> result B) xs xs' acc :
  for_each xs (fun x acc =>
    for_each xs' (fun x' acc => y <- f x x' ;; ret (acc ++ [y])) acc) acc
  = (ys <- mapM (fun p => f (fst p) (snd p)) (list_prod xs xs') ;; ret (acc ++ ys)).
Proof.
  revert acc. induction xs as [|x xs IH]; intros acc; cbn [for_each list_prod].
  - cbn. now rewrite app_nil_r.
  - rewrite for_each_append, mapM_app, mapM_map. cbn [fst snd].
    destruct (mapM (fun x' => f x x') xs') as [ys|e]; cbn; [|reflexivity].
    rewrite IH.
    destruct (mapM _ (list_prod xs xs')); cbn; [|reflexivity].
    now rewrite app_assoc.
Qed.

Lemma mapM_length {A B} (f : A -> result B) xs ys :
  mapM f xs = OK ys -> length ys = length xs.
Proof.
  revert ys. induction xs as [|x xs IH]; intros ys H; cbn in H.
  - now inversion H.
  - bind_inv H. inversion H; subst. cbn. f_equal. auto.
Qed.

Lemma mapM_nth_error {A B} (f : A -> result B) xs ys n x :
  mapM f xs = OK ys -> nth_error xs n = Some x ->
  exists y, nth_error ys n = Some y /\ f x = OK y.
Proof.
  revert ys n. induction xs as [|x0 xs IH]; intros ys n H Hn.
  - destruct n; discriminate.
  - cbn in H. bind_inv H. inversion H; subst.
    destruct n as [|n]; cbn in *.
    + inversion Hn; subst. eauto.
    + eauto.
Qed.

Lemma mapM_total {A B} (f : A -> result B) xs :
  Forall (fun x => exists y, f x = OK y) xs -> exists ys, mapM f xs = OK ys.
Proof.
  induction 1 as [|x xs [y Hy] _ [ys Hys]]; cbn.
  - eauto.
  - rewrite Hy, Hys. cbn. eauto.
Qed.

Lemma length_concat_uniform {A} (rows : list (list A)) n :
  Forall (fun row => length row = n) rows -> length (concat rows) = length rows * n.
Proof.
  induction 1 as [|row rows Hrow _ IH]; cbn; [reflexivity|].
  rewrite length_app. lia.
Qed.

Lemma hstack_OK {A} (rows : list (list A)) v :
  hstack rows = OK v -> v = concat rows.
Proof. destruct rows; cbn; [discriminate | congruence]. Qed.

(** ** The feature extractor *)

Lemma slices_nth_error i j :
  i < 5 -> j < 4 -> nth_error slices (4 * i + j) = Some (i, j).
Proof.
  intros Hi Hj.
  destruct i as [|[|[|[|[|i]]]]]; [ | | | | | lia];
    (destruct j as [|[|[|[|j]]]]; [ | | | | lia]); reflexivity.
Qed.

Section FeatureProperties.

Context `{ImagingLib}.

Lemma glcmEntropy_mapM glcm :
  glcmEntropy glcm = mapM (fun ij => entropy_at glcm (fst ij) (snd ij)) slices.
Proof.
  unfold glcmEntropy.
  rewrite (@for_each_ext _ _ _
             (fun i acc => for_each (range 0 4)
                (fun j acc => y <- entropy_at glcm i j ;; ret (acc ++ [y])) acc)).
  - rewrite (for_each_append2 (entropy_at glcm)).
    unfold slices. now destruct (mapM _ _).
  - intros i acc. apply for_each_ext. intros j acc'.
    unfold entropy_at. now rewrite bind_assoc.
Qed.

End FeatureProperties.

(** One step of a chain of binds whose head is known. *)
Ltac result_step := cbn [bind ret result_monad result_bind].

Section FeatureTheorems.

Context `{L : ImagingLib}.
Hypothesis shapes : ImagingLibShapes L.

Lemma glcmEntropy_length glcm entropy :
  glcmEntropy glcm = OK entropy -> length entropy = 20.
Proof.
  rewrite glcmEntropy_mapM. intros E. now rewrite (mapM_length _ _ E).
Qed.

Lemma glcmEntropy_nth glcm entropy i j :
  glcmEntropy glcm = OK entropy -> i < 5 -> j < 4 ->
  exists s h, slice glcm i j = OK s /\ shannon_entropy s = OK h /\
              nth_error entropy (4 * i + j) = Some h.
Proof.
  rewrite glcmEntropy_mapM. intros E Hi Hj.
  destruct (mapM_nth_error _ _ _ E (slices_nth_error Hi Hj)) as (h & Hh & Hat).
  cbn [fst snd] in Hat. unfold entropy_at in Hat.
  apply bind_OK in Hat. destruct Hat as (s & Hs & Hse). eauto.
Qed.

Lemma slice_in_bounds glcm n0 n1 i j :
  shape4 glcm = (n0, n1, 5, 4) -> i < 5 -> j < 4 ->
  exists s, slice glcm i j = OK s.
Proof.
  intros Hshape Hi Hj. unfold slice. rewrite Hshape.
  apply Nat.ltb_lt in Hi, Hj. rewrite Hi, Hj. cbn. eauto.
Qed.

Lemma glcmEntropy_total glcm n0 n1 :
  shape4 glcm = (n0, n1, 5, 4) ->
  (forall s, exists h, shannon_entropy s = OK h) ->
  exists entropy, glcmEntropy glcm = OK entropy.
Proof.
  intros Hshape Htot. rewrite glcmEntropy_mapM. apply mapM_total.
  apply Forall_forall. intros [i j] Hin. cbn [fst snd].
  apply in_prod_iff in Hin. destruct Hin as [Hi Hj].
  apply in_seq in Hi, Hj. cbn in Hi, Hj.
  destruct (@slice_in_bounds glcm n0 n1 i j Hshape) as [s Hs]; [lia | lia |].
  destruct (Htot s) as [h Hh]. exists h.
  unfold entropy_at. now rewrite Hs.
Qed.

Lemma graycoprops_length px glcm prop rows :
  graycomatrix px distances angles 256 = OK glcm ->
  graycoprops glcm prop = OK rows ->
  length rows = 5 /\ length (concat rows) = 20.
Proof.
  intros Hg Hp.
  pose proof (graycomatrix_shape shapes _ _ _ _ Hg) as Hshape.
  destruct (graycoprops_shape shapes _ _ Hp) as [Hrows Hcols].
  rewrite Hshape in Hrows, Hcols. cbn in Hrows, Hcols.
  split; [exact Hrows|].
  rewrite (length_concat_uniform Hcols), Hrows. reflexivity.
Qed.

Lemma computeFeatures_inv image v :
  computeFeatures image = OK v ->
  exists px glcm contrast homogeneity entropy,
    np_array_uint8 image = OK px /\
    graycomatrix px distances angles 256 = OK glcm /\
    graycoprops glcm "contrast" = OK contrast /\
    graycoprops glcm "homogeneity" = OK homogeneity /\
    glcmEntropy glcm = OK entropy /\
    length (concat contrast) = 20 /\
    length (concat homogeneity) = 20 /\
    length entropy = 20 /\
    v = concat contrast ++ concat homogeneity ++ entropy.
Proof.
  intros E. unfold computeFeatures in E. bind_inv E.
  inversion E; subst; clear E.
  match goal with
  | Hc : hstack _ = OK _, Hh : hstack _ = OK _ |- _ =>
      apply hstack_OK in Hc, Hh; subst
  end.
  do 5 eexists. repeat split; eauto.
  - eapply graycoprops_length; eauto.
  - eapply graycoprops_length; eauto.
  - eapply glcmEntropy_length; eauto.
Qed.

Lemma computeFeatures_length image v :
  computeFeatures image = OK v -> length v = 60.
Proof.
  intros E. apply computeFeatures_inv in E.
  destruct E as (px & g & c & h & e & _ & _ & _ & _ & _ & Hc & Hh & He & ->).
  rewrite !length_app. lia.
Qed.

Lemma computeFeatures_total image :
  ImagingLibTotal L -> exists v, computeFeatures image = OK v.
Proof.
  intros T. unfold computeFeatures.
  destruct (np_array_total T image) as [px ->]. result_step.
  destruct (graycomatrix_total T px distances angles 256) as [g Hg].
  rewrite Hg. result_step.
  destruct (graycoprops_total T g "contrast") as [c Hc]. rewrite Hc. result_step.
  destruct (graycoprops_total T g "homogeneity") as [h Hh]. rewrite Hh. result_step.
  pose proof (graycomatrix_shape shapes _ _ _ _ Hg) as Hshape.
  destruct (@glcmEntropy_total g 256 256 Hshape (shannon_entropy_total T)) as [e He].
  rewrite He. result_step.
  destruct (@graycoprops_length _ _ _ _ Hg Hc) as [Hlc _].
  destruct (@graycoprops_length _ _ _ _ Hg Hh) as [Hlh _].
  destruct c; [discriminate|]. destruct h; [discriminate|].
  cbn. eauto.
Qed.

Lemma featuresSizes_inv image v :
  featuresSizes image = OK v ->
  exists b32 b64 b128,
    scale_block image 32 b32 /\ scale_block image 64 b64 /\
    scale_block image 128 b128 /\ v = b32 ++ b64 ++ b128.
Proof.
  intros E. unfold featuresSizes in E. bind_inv E.
  inversion E; subst; clear E.
  repeat match goal with
         | Hc : computeFeatures _ = OK _ |- _ =>
             apply computeFeatures_inv in Hc;
             destruct Hc as (? & ? & ? & ? & ? & ? & ? & ? & ? & ? & ? & ? & ? & ?)
         end.
  do 3 eexists. repeat split; try reflexivity.
  all: unfold scale_block; do 6 eexists; repeat split; eauto.
Qed.

Lemma scale_block_length image size block :
  scale_block image size block -> length block = 60.
Proof.
  intros (? & ? & ? & c & h & e & _ & _ & _ & _ & _ & _ & Hc & Hh & He & ->).
  rewrite !length_app. lia.
Qed.

End FeatureTheorems.

Lemma Solid_shapes : ImagingLibShapes Solid.lib.
Proof.
  split.
  - intros px ds angs levels g E. cbn in E. unfold Solid.comatrix in E.
    now inversion E.
  - intros g prop rows E. cbn in E. unfold Solid.coprops in E.
    inversion E; subst; clear E. split.
    + apply repeat_length.
    + apply Forall_forall. intros row Hrow.
      apply repeat_spec in Hrow. subst. apply repeat_length.
Qed.

Lemma Solid_total : ImagingLibTotal Solid.lib.
Proof. split; cbn; intros; eexists; reflexivity. Qed.

Section FeatureClaims.

Context `{L : ImagingLib}.

(** C1: whatever the image, a feature vector returned by [featuresFile] has
    exactly 360 entries; and when no library call raises, [featuresFile]
    does return one for every image it is handed. *)
Theorem featuresFile_length :
  ImagingLibShapes L ->
  (forall path image v, featuresFile path image = OK v -> length v = 360) /\
  (ImagingLibTotal L ->
   forall path im, exists v, featuresFile path (Some im) = OK v /\ length v = 360).
Proof.
  intros shapes.
  assert (Hlen : forall path image v,
             featuresFile path image = OK v -> length v = 360).
  { intros path image v E. unfold featuresFile in E. bind_inv E.
    inversion E; subst; clear E.
    repeat match goal with
           | Hs : featuresSizes _ = OK _ |- _ =>
               apply (featuresSizes_inv shapes) in Hs;
               destruct Hs as (? & ? & ? & ? & ? & ? & ?)
           end.
    subst.
    repeat match goal with
           | Hb : scale_block _ _ _ |- _ => apply scale_block_length in Hb
           end.
    rewrite !length_app. lia. }
  split; [exact Hlen|].
  intros T path im.
  assert (Hsizes : forall q, exists v, featuresSizes q = OK v).
  { intros q. unfold featuresSizes.
    destruct (resize_total T q (128, 128)) as [i128 ->]. result_step.
    destruct (resize_total T q (64, 64)) as [i64 ->]. result_step.
    destruct (resize_total T q (32, 32)) as [i32 ->]. result_step.
    destruct (computeFeatures_total shapes i128 T) as [f128 ->]. result_step.
    destruct (computeFeatures_total shapes i64 T) as [f64 ->]. result_step.
    destruct (computeFeatures_total shapes i32 T) as [f32 ->]. result_step.
    eauto. }
  assert (Hfile : exists v, featuresFile path (Some im) = OK v).
  { unfold featuresFile. result_step.
    destruct (equalize_total T im) as [eq ->]. result_step.
    destruct (convert_total T eq "L") as [gray ->]. result_step.
    destruct (quantize_total T gray 16) as [q16 ->]. result_step.
    destruct (quantize_total T gray 32) as [q32 ->]. result_step.
    destruct (Hsizes q16) as [f16 ->]. result_step.
    destruct (Hsizes q32) as [f32 ->]. result_step.
    eauto. }
  destruct Hfile as [v Hv]. exists v. split; [exact Hv | eapply Hlen; eauto].
Qed.

(** C3: [glcmEntropy] returns exactly 20 values whatever the shape of
    the GLCM (its bounds 5 and 4 are constants), the value at position
    4*i + j being the entropy of the slice [glcm[:, :, i, j]]; on a GLCM
    with 5 distances and 4 angles it returns whenever [shannon_entropy]
    does.  [computeFeatures] returns the 20 contrast values of one
    [graycoprops] call, then the 20 homogeneity values of another, then
    these 20 entropy values. *)
Theorem computeFeatures_layout :
  ImagingLibShapes L ->
  (forall glcm entropy,
      glcmEntropy glcm = OK entropy ->
      length entropy = 20 /\
      forall i j, i < 5 -> j < 4 ->
        exists s h, slice glcm i j = OK s /\ shannon_entropy s = OK h /\
                    nth_error entropy (4 * i + j) = Some h) /\
  (forall glcm n0 n1,
      shape4 glcm = (n0, n1, 5, 4) ->
      (forall s, exists h, shannon_entropy s = OK h) ->
      exists entropy, glcmEntropy glcm = OK entropy) /\
  (forall image v,
      computeFeatures image = OK v ->
      exists px glcm contrast homogeneity entropy,
        np_array_uint8 image = OK px /\
        graycomatrix px distances angles 256 = OK glcm /\
        graycoprops glcm "contrast" = OK contrast /\
        graycoprops glcm "homogeneity" = OK homogeneity /\
        glcmEntropy glcm = OK entropy /\
        length (concat contrast) = 20 /\
        length (concat homogeneity) = 20 /\
        length entropy = 20 /\
        v = concat contrast ++ concat homogeneity ++ entropy).
Proof.
  intros shapes. split; [|split].
  - intros glcm entropy E. split.
    + eapply glcmEntropy_length; eauto.
    + intros i j Hi Hj. eapply glcmEntropy_nth; eauto.
  - intros glcm n0 n1. apply glcmEntropy_total.
  - intros image v. apply (computeFeatures_inv shapes).
Qed.

(** C4: a feature vector returned by [featuresFile] is six blocks of 60
    values: the 16-colour image at 32x32, 64x64 and 128x128, then the
    32-colour image at 32x32, 64x64 and 128x128; each block is contrast,
    then homogeneity, then entropy. *)
Theorem featuresFile_layout :
  ImagingLibShapes L ->
  forall path image v,
    featuresFile path image = OK v ->
    exists img equalized gray quant16 quant32 a32 a64 a128 b32 b64 b128,
      match image with
      | Some im => img = im
      | None => Image_open path = OK img
      end /\
      ImageOps_equalize img = OK equalized /\
      Image_convert equalized "L" = OK gray /\
      Image_quantize gray 16 = OK quant16 /\
      Image_quantize gray 32 = OK quant32 /\
      scale_block quant16 32 a32 /\
      scale_block quant16 64 a64 /\
      scale_block quant16 128 a128 /\
      scale_block quant32 32 b32 /\
      scale_block quant32 64 b64 /\
      scale_block quant32 128 b128 /\
      Forall (fun block => length block = 60) [a32; a64; a128; b32; b64; b128] /\
      v = a32 ++ a64 ++ a128 ++ b32 ++ b64 ++ b128.
Proof.
  intros shapes path image v E. unfold featuresFile in E. bind_inv E.
  inversion E; subst; clear E.
  repeat match goal with
         | Hs : featuresSizes _ = OK _ |- _ =>
             apply (featuresSizes_inv shapes) in Hs;
             destruct Hs as (? & ? & ? & ? & ? & ? & ?)
         end.
  subst.
  do 11 eexists.
  repeat match goal with |- _ /\ _ => split end; eauto.
  - destruct image; [now inversion Ha | exact Ha].
  - repeat constructor; eapply scale_block_length; eauto.
  - now rewrite <- !app_assoc.
Qed.

End FeatureClaims.

(** ** Loops with events *)

Lemma eff_bind_ret_l {E A B} (a : A) (k : A -> Eff E B) : bind (ret a) k = k a.
Proof. cbn. now destruct (k a). Qed.

Lemma eff_bind_ret_r {E A} (c : Eff E A) : bind c ret = c.
Proof. destruct c as [ev [a|e]]; cbn; [now rewrite app_nil_r | reflexivity]. Qed.

Lemma eff_bind_lift_OK {E A B} (a : A) (k : A -> Eff E B) :
  bind (lift (OK a)) k = k a.
Proof. cbn. now destruct (k a). Qed.

Lemma eff_bind_assoc {E A B C} (c : Eff E A) (k : A -> Eff E B) (k' : B -> Eff E C) :
  bind (bind c k) k' = bind c (fun a => bind (k a) k').
Proof.
  destruct c as [ev [a|e]]; cbn; [|reflexivity].
  destruct (k a) as [ev' [b|e]]; cbn; [|reflexivity].
  destruct (k' b) as [ev'' r]. now rewrite app_assoc.
Qed.

Lemma eff_bind_ext {E A B} (c : Eff E A) (k k' : A -> Eff E B) :
  (forall a, k a = k' a) -> bind c k = bind c k'.
Proof. intros Hk. destruct c as [ev [a|e]]; cbn; [now rewrite Hk | reflexivity]. Qed.

Lemma for_each_eff_ext {E A S} (body body' : A -> S -> Eff E S) xs s :
  (forall x s, body x s = body' x s) ->
  for_each xs body s = for_each xs body' s.
Proof.
  intros Hb. revert s. induction xs as [|x xs IH]; intros s; cbn [for_each].
  - reflexivity.
  - rewrite Hb. apply eff_bind_ext. exact IH.
Qed.

Lemma for_each_eff_app {E A S} (body : A -> S -> Eff E S) xs ys s :
  for_each (xs ++ ys) body s = bind (for_each xs body s) (for_each ys body).
Proof.
  revert s. induction xs as [|x xs IH]; intros s; cbn [for_each app].
  - now rewrite eff_bind_ret_l.
  - rewrite eff_bind_assoc. apply eff_bind_ext. exact IH.
Qed.

Lemma for_each_eff_map {E A A' S} (g : A -> A') (body : A' -> S -> Eff E S) xs s :
  for_each (map g xs) body s = for_each xs (fun x => body (g x)) s.
Proof.
  revert s. induction xs as [|x xs IH]; intros s; cbn [for_each map].
  - reflexivity.
  - apply eff_bind_ext. exact IH.
Qed.

(** A loop that skips the elements failing a test is the loop over those
    that pass it. *)
Lemma for_each_eff_filter {E A S} (p : A -> bool) (body : A -> S -> Eff E S) xs s :
  for_each xs (fun x s => if p x then body x s else ret s) s
  = for_each (filter p xs) body s.
Proof.
  revert s. induction xs as [|x xs IH]; intros s; cbn [for_each filter].
  - reflexivity.
  - destruct (p x); cbn [for_each].
    + apply eff_bind_ext. exact IH.
    + rewrite eff_bind_ret_l. apply IH.
Qed.

(** An invariant [I] of events and loop state, kept by every iteration that
    returns, and a property [J] of the events alone, reached by every
    iteration that raises. *)
Lemma for_each_eff_inv {E A S} (I : list E -> S -> Prop) (J : list E -> Prop)
      (body : A -> S -> Eff E S) xs :
  (forall x evs s, In x xs -> I evs s ->
     match body x s with
     | (ev, OK s') => I (evs ++ ev) s'
     | (ev, Raise _) => J (evs ++ ev)
     end) ->
  forall evs s, I evs s ->
    match for_each xs body s with
    | (ev, OK s') => I (evs ++ ev) s'
    | (ev, Raise _) => J (evs ++ ev)
    end.
Proof.
  induction xs as [|x xs IH]; intros Hbody evs s HI; cbn [for_each].
  - cbn. now rewrite app_nil_r.
  - pose proof (Hbody x evs s (or_introl eq_refl) HI) as Hx.
    destruct (body x s) as [ev [s'|e]]; cbn.
    + assert (Hxs : forall y evs s, In y xs -> I evs s ->
                 match body y s with
                 | (ev, OK s') => I (evs ++ ev) s'
                 | (ev, Raise _) => J (evs ++ ev)
                 end) by (intros; apply Hbody; [now right | assumption]).
      pose proof (IH Hxs (evs ++ ev) s' Hx) as Hrest.
      destruct (for_each xs body s') as [ev' r]. now rewrite app_assoc.
    + exact Hx.
Qed.

(** ** The dataset loader *)

Section LoaderLemmas.

Context `{L : ImagingLib} `{F : FileSystem}.

Lemma featuresFolder_scan :
  featuresFolder =
    (st <- for_each (range 1 5) scan ([], [], 0) ;; ret (fst st)).
Proof.
  unfold featuresFolder.
  match goal with
  | |- bind ?c _ = _ => transitivity (bind c (fun st => ret (fst st)))
  end.
  { apply eff_bind_ext. intros [[features types] imgCount]. reflexivity. }
  f_equal.
  apply for_each_eff_ext. intros i st. unfold scan.
  apply eff_bind_ext. intros files.
  apply for_each_eff_ext. intros file [[features types] imgCount].
  reflexivity.
Qed.

Lemma scan_listing i files st :
  scandir ("imgs/" ++ str i ++ "/")%string = OK files ->
  scan i st = for_each (map (pair i) (pngs files))
                (fun e => visit (fst e) (snd e)) st.
Proof.
  intros Hdir. unfold scan. rewrite Hdir, eff_bind_lift_OK.
  rewrite (for_each_eff_filter is_png (visit i)).
  now rewrite for_each_eff_map.
Qed.

(** With the four folders listed, the loader is one loop over the
    labelled entries. *)
Lemma featuresFolder_flat l1 l2 l3 l4 :
  scandir "imgs/1/" = OK l1 -> scandir "imgs/2/" = OK l2 ->
  scandir "imgs/3/" = OK l3 -> scandir "imgs/4/" = OK l4 ->
  featuresFolder =
    (st <- for_each (labelled l1 l2 l3 l4)
             (fun e => visit (fst e) (snd e)) ([], [], 0) ;;
     ret (fst st)).
Proof.
  intros H1 H2 H3 H4. rewrite featuresFolder_scan. f_equal.
  unfold labelled. cbn [range Nat.sub seq for_each].
  rewrite for_each_eff_app, <- (scan_listing 1 _ H1).
  apply eff_bind_ext. intros s1.
  rewrite for_each_eff_app, <- (scan_listing 2 s1 H2).
  apply eff_bind_ext. intros s2.
  rewrite for_each_eff_app, <- (scan_listing 3 s2 H3).
  apply eff_bind_ext. intros s3.
  rewrite <- (scan_listing 4 s3 H4).
  apply eff_bind_ret_r.
Qed.

End LoaderLemmas.

Lemma for_each_eff_raises {E A S} (body : A -> S -> Eff E S) xs x :
  In x xs ->
  (forall s, exists e, outcome (body x s) = Raise e) ->
  forall s, exists e, outcome (for_each xs body s) = Raise e.
Proof.
  intros Hin Hx. induction xs as [|y xs IH]; intros s; [contradiction|].
  cbn [for_each]. destruct Hin as [->|Hin].
  - destruct (Hx s) as [e He]. destruct (body x s) as [ev [s'|e']]; cbn in *.
    + discriminate.
    + eauto.
  - destruct (body y s) as [ev [s'|e']]; cbn.
    + destruct (IH Hin s') as [e He].
      destruct (for_each xs body s') as [ev' r]. cbn in *. eauto.
    + eauto.
Qed.

Section LoaderTheorems.

Context `{L : ImagingLib} `{F : FileSystem}.

Lemma visit_OK i file features types cnt v z :
  featuresFile (Some (path file)) None = OK v ->
  progress_value (cnt + 1) = OK z ->
  visit i file (features, types, cnt)
  = (file_events (cnt + 1), OK (features ++ [v], types ++ [i], cnt + 1)).
Proof.
  intros Hv Hz. unfold visit, file_events. rewrite Hv, Hz. reflexivity.
Qed.

Lemma visit_extract_Raise i file st e :
  featuresFile (Some (path file)) None = Raise e ->
  visit i file st = ([], Raise e).
Proof.
  intros He. destruct st as [[features types] cnt].
  unfold visit. rewrite He. reflexivity.
Qed.

(** The loop over entries on which extraction and the progress
    arithmetic succeed. *)
Lemma loop_OK entries vs :
  extracted entries vs ->
  forall features types cnt,
    (forall k, cnt < k <= cnt + length entries ->
               exists z, progress_value k = OK z) ->
    for_each entries (fun e => visit (fst e) (snd e)) (features, types, cnt)
    = (flat_map file_events (seq (cnt + 1) (length entries)),
       OK (features ++ vs, types ++ map fst entries, cnt + length entries)).
Proof.
  induction 1 as [|[i file] v entries vs Hv _ IH]; intros features types cnt Hp.
  - cbn. now rewrite !app_nil_r, Nat.add_0_r.
  - cbn [for_each fst snd length map seq flat_map].
    destruct (Hp (cnt + 1)) as [z Hz]; [cbn; lia|].
    cbn [snd] in Hv. rewrite (visit_OK i _ _ _ _ Hv Hz).
    cbn [bind eff_monad eff_bind].
    rewrite IH by (intros k Hk; apply Hp; cbn; lia).
    rewrite <- !app_assoc. cbn [app].
    replace (cnt + 1 + 1) with (S (cnt + 1)) by lia.
    replace (cnt + 1 + length entries) with (cnt + S (length entries)) by lia.
    reflexivity.
Qed.

(** The loop up to the first entry on which extraction raises. *)
Lemma loop_Raise pre i file post vs e :
  extracted pre vs ->
  featuresFile (Some (path file)) None = Raise e ->
  forall features types cnt,
    (forall k, cnt < k <= cnt + length pre -> exists z, progress_value k = OK z) ->
    for_each (pre ++ (i, file) :: post) (fun e => visit (fst e) (snd e))
      (features, types, cnt)
    = (flat_map file_events (seq (cnt + 1) (length pre)), Raise e).
Proof.
  intros Hpre He features types cnt Hp.
  rewrite for_each_eff_app, (@loop_OK _ _ Hpre _ _ _ Hp).
  cbn [bind eff_monad eff_bind for_each fst snd].
  rewrite (visit_extract_Raise i _ _ He). cbn.
  now rewrite app_nil_r.
Qed.

Lemma labelled_labels l1 l2 l3 l4 :
  map fst (labelled l1 l2 l3 l4)
  = repeat 1 (length (pngs l1)) ++ repeat 2 (length (pngs l2)) ++
    repeat 3 (length (pngs l3)) ++ repeat 4 (length (pngs l4)).
Proof.
  assert (Hfst : forall i (l : list DirEntry),
             map (@fst nat DirEntry) (map (pair i) l) = repeat i (length l)).
  { intros i l. induction l; cbn; congruence. }
  unfold labelled. now rewrite !map_app, !Hfst.
Qed.

Lemma labelled_length l1 l2 l3 l4 :
  length (labelled l1 l2 l3 l4)
  = length (pngs l1) + length (pngs l2) + length (pngs l3) + length (pngs l4).
Proof. unfold labelled. rewrite !length_app, !length_map. lia. Qed.

(** C6: when the four class folders list [l1] .. [l4], extraction
    succeeds on each of their N [.png] files and the progress arithmetic
    does not overflow, the loader returns exactly N feature vectors and N
    labels, in the order folder 1, 2, 3, 4 and, within a folder, in
    listing order; the label of a vector is the number of the folder its
    file is in, so every label is between 1 and 4. *)
Theorem featuresFolder_pairs l1 l2 l3 l4 vs :
  scandir "imgs/1/" = OK l1 -> scandir "imgs/2/" = OK l2 ->
  scandir "imgs/3/" = OK l3 -> scandir "imgs/4/" = OK l4 ->
  extracted (labelled l1 l2 l3 l4) vs ->
  (forall k, 1 <= k <= length vs -> exists z, progress_value k = OK z) ->
  let N := length (pngs l1) + length (pngs l2) + length (pngs l3)
           + length (pngs l4) in
  let types := repeat 1 (length (pngs l1)) ++ repeat 2 (length (pngs l2)) ++
               repeat 3 (length (pngs l3)) ++ repeat 4 (length (pngs l4)) in
  outcome featuresFolder = OK (vs, types) /\
  length vs = N /\ length types = N /\
  Forall (fun t => 1 <= t <= 4) types.
Proof.
  intros H1 H2 H3 H4 Hvs Hp N types.
  assert (Hlen : length vs = N).
  { rewrite <- (Forall2_length Hvs). apply labelled_length. }
  assert (Htypes : types = map fst (labelled l1 l2 l3 l4))
    by (symmetry; apply labelled_labels).
  split; [|split; [exact Hlen|split]].
  - rewrite (featuresFolder_flat H1 H2 H3 H4).
    rewrite (loop_OK Hvs).
    + cbn. now rewrite Htypes.
    + intros k Hk. apply Hp. rewrite <- (Forall2_length Hvs). lia.
  - rewrite Htypes, length_map. apply labelled_length.
  - unfold types. rewrite !Forall_app.
    repeat split; apply Forall_forall; intros t Ht;
      apply repeat_spec in Ht; lia.
Qed.

(** C7: an entry the loader processes on which extraction raises makes
    the whole call raise: no list is returned.  When it is the first such
    entry the exception the caller gets is the one extraction raised, and
    the screen has seen the files before it and nothing more. *)
Theorem featuresFolder_fatal file e :
  featuresFile (Some (path file)) None = Raise e ->
  is_png file = true ->
  (forall i files,
      In i (range 1 5) ->
      scandir ("imgs/" ++ str i ++ "/")%string = OK files ->
      In file files ->
      exists e', outcome featuresFolder = Raise e') /\
  (forall l1 l2 l3 l4 i pre post vs,
      scandir "imgs/1/" = OK l1 -> scandir "imgs/2/" = OK l2 ->
      scandir "imgs/3/" = OK l3 -> scandir "imgs/4/" = OK l4 ->
      labelled l1 l2 l3 l4 = pre ++ (i, file) :: post ->
      extracted pre vs ->
      (forall k, 1 <= k <= length pre -> exists z, progress_value k = OK z) ->
      featuresFolder = (flat_map file_events (seq 1 (length pre)), Raise e)).
Proof.
  intros He Hpng. split.
  - intros i files Hi Hdir Hin.
    rewrite featuresFolder_scan.
    destruct (@for_each_eff_raises _ _ _ scan (range 1 5) i Hi) with (s := ([], [], 0) : loader_state)
      as [e' He'].
    + intros s. unfold scan. rewrite Hdir, eff_bind_lift_OK.
      apply (@for_each_eff_raises _ _ _ _ files file Hin).
      intros s'. rewrite Hpng, (visit_extract_Raise i _ _ He). cbn. eauto.
    + exists e'. destruct (for_each (range 1 5) scan _) as [ev [s'|e'']];
        cbn in *; congruence.
  - intros l1 l2 l3 l4 i pre post vs H1 H2 H3 H4 Hsplit Hpre Hp.
    rewrite (featuresFolder_flat H1 H2 H3 H4), Hsplit.
    rewrite (@loop_Raise pre i file post vs e Hpre He).
    + reflexivity.
    + intros k Hk. apply Hp. lia.
Qed.

End LoaderTheorems.

Lemma progress_value_bound k v :
  k <= 403 -> progress_value k = OK v -> (0 <= v <= 100)%Z.
Proof.
  intros Hk Hv.
  assert (Hall : forallb progress_in_range (seq 0 404) = true)
    by (vm_compute; reflexivity).
  rewrite forallb_forall in Hall.
  specialize (Hall k). unfold progress_in_range in Hall. rewrite Hv in Hall.
  assert (Hin : In k (seq 0 404)) by (apply in_seq; lia).
  apply Hall in Hin. apply andb_prop in Hin. lia.
Qed.

(** Binary64 rounding shows in the percentage: 116/400 is 0.29, and
    0.29 * 100 is just under 29. *)
Example progress_value_116 : progress_value 116 = OK 28%Z.
Proof. vm_compute. reflexivity. Qed.

Lemma Forall2_In_r {A B} (P : A -> B -> Prop) xs ys y :
  Forall2 P xs ys -> In y ys -> exists x, In x xs /\ P x y.
Proof.
  induction 1 as [|x y' xs ys Hxy _ IH]; intros Hin; [contradiction|].
  destruct Hin as [->|Hin].
  - exists x. split; [now left | exact Hxy].
  - destruct (IH Hin) as (x' & Hx' & HP). exists x'. split; [now right | exact HP].
Qed.

Section ProgressTheorems.

Context `{L : ImagingLib} `{F : FileSystem}.

Lemma progress_values_app evs evs' :
  progress_values (evs ++ evs') = progress_values evs ++ progress_values evs'.
Proof. apply flat_map_app. Qed.

Lemma progress_of_counts_bound n values :
  progress_of_counts n values -> n <= 403 ->
  Forall (fun v => (0 <= v <= 100)%Z) values.
Proof.
  intros Hp Hn. apply Forall_forall. intros v Hv.
  destruct (@Forall2_In_r _ _ _ _ _ _ Hp Hv) as (k & Hk & Hkv).
  apply in_seq in Hk. eapply progress_value_bound; [|exact Hkv]. lia.
Qed.

Lemma visit_inv i file evs st :
  loader_inv evs st ->
  match visit i file st with
  | (ev, OK st') => loader_inv (evs ++ ev) st'
  | (ev, Raise _) => exists n, progress_of_counts n (progress_values (evs ++ ev))
  end.
Proof.
  destruct st as [[features types] cnt]. intros (Hf & Ht & Hp).
  unfold visit.
  destruct (featuresFile (Some (path file)) None) as [v|e]; cbn.
  2:{ rewrite app_nil_r. eauto. }
  destruct (progress_value (cnt + 1)) as [z|e] eqn:Hz; cbn.
  2:{ rewrite app_nil_r. eauto. }
  rewrite !length_app, progress_values_app. cbn.
  repeat split; try lia.
  unfold progress_of_counts. rewrite seq_app. cbn.
  apply Forall2_app; [exact Hp|].
  constructor; [|constructor]. now rewrite Nat.add_comm in Hz.
Qed.

Lemma scan_inv i evs st :
  loader_inv evs st ->
  match scan i st with
  | (ev, OK st') => loader_inv (evs ++ ev) st'
  | (ev, Raise _) => exists n, progress_of_counts n (progress_values (evs ++ ev))
  end.
Proof.
  intros Hinv. unfold scan.
  destruct (scandir ("imgs/" ++ str i ++ "/")%string) as [files|e].
  - rewrite eff_bind_lift_OK.
    apply (for_each_eff_inv loader_inv
             (fun evs => exists n, progress_of_counts n (progress_values evs)));
      [|exact Hinv].
    intros file evs' st' _ Hinv'. destruct (is_png file).
    + now apply visit_inv.
    + cbn. now rewrite app_nil_r.
  - cbn. rewrite app_nil_r. destruct st as [[features types] cnt].
    destruct Hinv as (_ & _ & Hp). eauto.
Qed.

Lemma featuresFolder_inv :
  match for_each (range 1 5) scan ([], [], 0) with
  | (ev, OK st') => loader_inv ev st'
  | (ev, Raise _) => exists n, progress_of_counts n (progress_values ev)
  end.
Proof.
  apply (for_each_eff_inv loader_inv
           (fun evs => exists n, progress_of_counts n (progress_values evs))
           scan (range 1 5)) with (evs := []) (s := ([], [], 0) : loader_state).
  - intros i evs st _. apply scan_inv.
  - cbn. repeat split. constructor.
Qed.

(** C8 (amended): the k-th progress value the loader reports is
    [int((k/400)*100)] in binary64 arithmetic, for k = 1, 2, ... without a
    gap; when the call returns there are as many values as vectors and
    labels; and the values lie in [0,100] as long as no more than 403 of
    them are reported. *)
Theorem featuresFolder_progress :
  progress_of_counts (length reported_progress) reported_progress /\
  (forall features types,
      outcome featuresFolder = OK (features, types) ->
      length reported_progress = length features /\
      length reported_progress = length types) /\
  (length reported_progress <= 403 ->
   Forall (fun v => (0 <= v <= 100)%Z) reported_progress).
Proof.
  unfold reported_progress. rewrite featuresFolder_scan.
  pose proof featuresFolder_inv as Hinv.
  destruct (for_each (range 1 5) scan ([], [], 0)) as [ev [[[fs ts] cnt]|e]];
    cbn [bind eff_monad eff_bind ret events outcome fst snd];
    rewrite ?app_nil_r.
  - destruct Hinv as (Hf & Ht & Hp).
    pose proof (Forall2_length Hp) as Hlen. rewrite length_seq in Hlen.
    rewrite <- Hlen. split; [exact Hp|split].
    + intros features types E. inversion E; subst. split; congruence.
    + intros Hsmall. eapply progress_of_counts_bound; eauto.
  - destruct Hinv as (n & Hp).
    pose proof (Forall2_length Hp) as Hlen. rewrite length_seq in Hlen.
    rewrite <- Hlen. split; [exact Hp|split].
    + intros features types E. discriminate.
    + intros Hsmall. eapply progress_of_counts_bound; eauto.
Qed.

End ProgressTheorems.

(** ** The properties on the sample inputs *)

#[local] Existing Instance Solid.lib.

(** Evaluate the list of labelled entries before walking along it. *)
Ltac eval_entries :=
  match goal with
  | |- context [labelled ?a ?b ?c ?d] =>
      let l := eval vm_compute in (labelled a b c d) in
      change (labelled a b c d) with l
  end.

(** C1 on the sample image. *)
Lemma featuresFile_length_witness :
  exists v, @featuresFile Solid.lib None (Some Solid.grey) = OK v /\ length v = 360.
Proof.
  apply (proj2 (@featuresFile_length Solid.lib Solid_shapes) Solid_total).
Defined.

(** C3 on the sample image. *)
Lemma computeFeatures_layout_witness :
  exists px glcm contrast homogeneity entropy,
    @np_array_uint8 Solid.lib Solid.grey = OK px /\
    graycomatrix px distances angles 256 = OK glcm /\
    graycoprops glcm "contrast" = OK contrast /\
    graycoprops glcm "homogeneity" = OK homogeneity /\
    glcmEntropy glcm = OK entropy /\
    length (concat contrast) = 20 /\
    length (concat homogeneity) = 20 /\
    length entropy = 20 /\
    grey_block = concat contrast ++ concat homogeneity ++ entropy.
Proof.
  apply (proj2 (proj2 (@computeFeatures_layout Solid.lib Solid_shapes))
           Solid.grey grey_block).
  vm_compute. reflexivity.
Defined.

(** C4 on the sample image. *)
Lemma featuresFile_layout_witness :
  exists (img equalized gray quant16 quant32 : @Image Solid.lib)
         a32 a64 a128 b32 b64 b128,
    img = Solid.grey /\
    ImageOps_equalize img = OK equalized /\
    Image_convert equalized "L" = OK gray /\
    Image_quantize gray 16 = OK quant16 /\
    Image_quantize gray 32 = OK quant32 /\
    scale_block quant16 32 a32 /\
    scale_block quant16 64 a64 /\
    scale_block quant16 128 a128 /\
    scale_block quant32 32 b32 /\
    scale_block quant32 64 b64 /\
    scale_block quant32 128 b128 /\
    Forall (fun block => length block = 60) [a32; a64; a128; b32; b64; b128] /\
    grey_features = a32 ++ a64 ++ a128 ++ b32 ++ b64 ++ b128.
Proof.
  apply (@featuresFile_layout Solid.lib Solid_shapes None (Some Solid.grey)
           grey_features).
  vm_compute. reflexivity.
Defined.

(** The stand-in entropy of the sample image is its number of pixels, so
    the entropy values show where each scale sits in the vector: 32x32,
    64x64, 128x128, and again for the second quantization. *)
Example grey_features_scales :
  map (fun k => nth_error grey_features (60 * k + 40)) (seq 0 6)
  = map (fun n => Some (PyFloat.of_Z n)) [1024; 4096; 16384; 1024; 4096; 16384]%Z.
Proof. vm_compute. reflexivity. Qed.

(** C6 on the small tree: four images, labels 1, 2, 4, 4. *)
Lemma featuresFolder_pairs_witness :
  outcome (@featuresFolder Solid.lib Solid.small_tree)
    = OK (small_features, [1; 2; 4; 4]) /\
  length small_features = 4 /\ length [1; 2; 4; 4] = 4 /\
  Forall (fun t => 1 <= t <= 4) [1; 2; 4; 4].
Proof.
  refine (@featuresFolder_pairs Solid.lib Solid.small_tree _ _ _ _ small_features
            eq_refl eq_refl eq_refl eq_refl _ _).
  - unfold extracted. eval_entries.
    repeat (apply Forall2_cons; [vm_compute; reflexivity|]). apply Forall2_nil.
  - intros k Hk. cbn in Hk.
    destruct k as [|[|[|[|[|k]]]]]; try lia; eexists; vm_compute; reflexivity.
Defined.

(** C7 on the tree with an unreadable image in folder 2: the call raises
    what [Image.open] raised, after the two files before it. *)
Lemma featuresFolder_fatal_witness :
  (exists e', outcome (@featuresFolder Solid.lib Solid.broken_tree) = Raise e') /\
  @featuresFolder Solid.lib Solid.broken_tree
  = (flat_map file_events (seq 1 2), Raise (LibraryError "UnidentifiedImageError")).
Proof.
  destruct (@featuresFolder_fatal Solid.lib Solid.broken_tree
              (Solid.file "imgs/2/broken.png")
              (LibraryError "UnidentifiedImageError"))
    as [Hraises Hfirst].
  - vm_compute. reflexivity.
  - vm_compute. reflexivity.
  - split.
    + apply (Hraises 2 [Solid.file "imgs/2/b.png"; Solid.file "imgs/2/broken.png";
                        Solid.file "imgs/2/e.png"]).
      * cbn. tauto.
      * reflexivity.
      * cbn. tauto.
    + refine (Hfirst _ _ _ _ 2
                [(1, Solid.file "imgs/1/a.png"); (2, Solid.file "imgs/2/b.png")]
                [(2, Solid.file "imgs/2/e.png"); (4, Solid.file "imgs/4/c.png");
                 (4, Solid.file "imgs/4/d.png")]
                (firstn 2 small_features)
                eq_refl eq_refl eq_refl eq_refl _ _ _).
      * vm_compute. reflexivity.
      * unfold extracted.
        repeat (apply Forall2_cons; [vm_compute; reflexivity|]). apply Forall2_nil.
      * intros k Hk. cbn in Hk.
        destruct k as [|[|[|k]]]; try lia; eexists; vm_compute; reflexivity.
Defined.

Lemma existsb_Zeqb_In (z : Z) (l : list Z) :
  existsb (Z.eqb z) l = true -> In z l.
Proof.
  intros Hex. apply existsb_exists in Hex. destruct Hex as (v & Hv & Heq).
  apply Z.eqb_eq in Heq. congruence.
Qed.

Lemma crowded_tree_reports_101 :
  In 101%Z (progress_values (events (@featuresFolder Solid.lib Solid.crowded_tree))).
Proof. apply existsb_Zeqb_In. vm_cast_no_check (eq_refl true). Qed.

(** C8 (as stated, refuted): with 404 images to load, the last progress
    value reported is 101. *)
Lemma featuresFolder_progress_above_100 :
  ~ (forall (L : ImagingLib) (F : FileSystem),
        Forall (fun v => (0 <= v <= 100)%Z)
               (progress_values (events (@featuresFolder L F)))).
Proof.
  intros Hall.
  pose proof (proj1 (Forall_forall _ _) (Hall Solid.lib Solid.crowded_tree)
                _ crowded_tree_reports_101) as Habove.
  cbv beta in Habove. lia.
Qed.

(** * Further properties *)

#[local] Remove Hints Solid.lib : typeclass_instances.

(** ** Confusion-matrix metrics *)

Lemma lookup_outside m r c i j :
  has_shape m r c -> r <= i \/ c <= j -> lookup m i j = Raise IndexError.
Proof.
  intros Hs Hout. destruct (lookup m i j) as [z|e] eqn:E.
  - destruct (@lookup_OK_bounds _ _ _ _ _ _ Hs E). lia.
  - now rewrite (lookup_Raise _ _ _ E).
Qed.

Lemma computeMetrics_small_outcome m r c :
  has_shape m r c -> Nat.min r c < 3 ->
  outcome (computeMetrics m) = Raise IndexError.
Proof.
  intros Hs Hsmall. metrics_unfold.
  metrics_cases;
    repeat match goal with
           | E : lookup _ _ _ = Raise _ |- _ => apply lookup_Raise in E; subst
           end;
    try reflexivity.
  exfalso.
  match goal with
  | E : lookup m 2 2 = OK _ |- _ =>
      pose proof (@lookup_OK_bounds _ _ _ _ _ _ Hs E)
  end.
  lia.
Qed.

(** X1: on a matrix with fewer than 3 rows or fewer than 3 columns
    [computeMetrics] raises [IndexError] inside its first loop, at the first
    diagonal cell that does not exist: it has read the diagonal cells before
    it and no off-diagonal cell. *)
Theorem computeMetrics_small_matrix m r c :
  has_shape m r c -> Nat.min r c < 3 ->
  computeMetrics m = (diagonal_reads (S (Nat.min r c)), Raise IndexError).
Proof.
  intros Hs Hmin.
  assert (Hin : forall i, i < Nat.min r c -> lookup m i i = OK (cell m i i))
    by (intros i Hi; eapply lookup_cell; [exact Hs | lia | lia]).
  assert (Hout : lookup m (Nat.min r c) (Nat.min r c) = Raise IndexError)
    by (eapply lookup_outside; [exact Hs | lia]).
  metrics_unfold.
  destruct (Nat.min r c) as [|[|[|k]]]; [ | | | lia].
  - rewrite Hout. reflexivity.
  - rewrite (Hin 0), Hout by lia. reflexivity.
  - rewrite (Hin 0), (Hin 1), Hout by lia. reflexivity.
Qed.

(** X1 on a 2 x 2 matrix. *)
Lemma computeMetrics_small_matrix_witness :
  computeMetrics [[7; 1]; [2; 9]]%Z = (diagonal_reads 3, Raise IndexError).
Proof.
  apply (@computeMetrics_small_matrix [[7; 1]; [2; 9]]%Z 2 2).
  - split; [reflexivity | repeat constructor].
  - cbn. lia.
Defined.

(** X2: on matrices with at least 3 rows and 3 columns the mean
    sensibility depends on the first three diagonal cells only and the
    specificity on the six off-diagonal cells of the top-left corner only. *)
Theorem computeMetrics_separation m1 r1 c1 m2 r2 c2 :
  has_shape m1 r1 c1 -> 3 <= r1 -> 3 <= c1 ->
  has_shape m2 r2 c2 -> 3 <= r2 -> 3 <= c2 ->
  exists ms1 sp1 ms2 sp2,
    outcome (computeMetrics m1) = OK (ms1, sp1) /\
    outcome (computeMetrics m2) = OK (ms2, sp2) /\
    ((forall i, i < 3 -> cell m1 i i = cell m2 i i) -> ms1 = ms2) /\
    ((forall i j, i < 3 -> j < 3 -> i <> j -> cell m1 i j = cell m2 i j) ->
     sp1 = sp2).
Proof.
  intros Hs1 Hr1 Hc1 Hs2 Hr2 Hc2.
  exists (float_sum (sensibilities m1)), (specificity_spec m1),
         (float_sum (sensibilities m2)), (specificity_spec m2).
  rewrite (computeMetrics_3x3 Hs1 Hr1 Hc1), (computeMetrics_3x3 Hs2 Hr2 Hc2).
  repeat split.
  - intros Hd. unfold sensibilities. cbn [seq map].
    now rewrite !Hd by lia.
  - intros Ho. unfold specificity_spec, off_diagonal.
    cbn [seq list_prod map app filter fst snd Nat.eqb negb].
    now rewrite !Ho by lia.
Qed.

(** X2 on two matrices with the same diagonal. *)
Lemma computeMetrics_separation_witness :
  exists ms1 sp1 ms2 sp2,
    outcome (computeMetrics confusion_perfect) = OK (ms1, sp1) /\
    outcome (computeMetrics [[100; 3; 0]; [0; 100; 5]; [1; 0; 100]]%Z)
      = OK (ms2, sp2) /\
    ((forall i, i < 3 ->
        cell confusion_perfect i i
        = cell [[100; 3; 0]; [0; 100; 5]; [1; 0; 100]]%Z i i) -> ms1 = ms2) /\
    ((forall i j, i < 3 -> j < 3 -> i <> j ->
        cell confusion_perfect i j
        = cell [[100; 3; 0]; [0; 100; 5]; [1; 0; 100]]%Z i j) -> sp1 = sp2).
Proof.
  apply (@computeMetrics_separation confusion_perfect 3 3
           [[100; 3; 0]; [0; 100; 5]; [1; 0; 100]]%Z 3 3).
  - split; [reflexivity | repeat constructor].
  - lia.
  - lia.
  - split; [reflexivity | repeat constructor].
  - lia.
  - lia.
Defined.

(** X3: when none of the first three classes is ever taken for another of
    them (the six off-diagonal cells of the top-left corner are 0) the
    specificity is exactly 1; when none is ever recognised (the three
    diagonal cells are 0) the mean sensibility is exactly 0. *)
Theorem computeMetrics_extremes m r c :
  has_shape m r c -> 3 <= r -> 3 <= c ->
  exists ms sp,
    outcome (computeMetrics m) = OK (ms, sp) /\
    ((forall i j, i < 3 -> j < 3 -> i <> j -> cell m i j = 0%Z) ->
     sp = PyFloat.of_Z 1) /\
    ((forall i, i < 3 -> cell m i i = 0%Z) -> ms = PyFloat.of_Z 0).
Proof.
  intros Hs Hr Hc.
  exists (float_sum (sensibilities m)), (specificity_spec m).
  rewrite (computeMetrics_3x3 Hs Hr Hc). repeat split.
  - intros Ho. unfold specificity_spec, off_diagonal.
    cbn [seq list_prod map app filter fst snd Nat.eqb negb].
    rewrite !Ho by lia. vm_compute. reflexivity.
  - intros Hd. unfold sensibilities. cbn [seq map].
    rewrite !Hd by lia. vm_compute. reflexivity.
Qed.

(** X3 on the perfect 3-class matrix. *)
Lemma computeMetrics_extremes_witness :
  exists ms sp,
    outcome (computeMetrics confusion_perfect) = OK (ms, sp) /\
    ((forall i j, i < 3 -> j < 3 -> i <> j -> cell confusion_perfect i j = 0%Z) ->
     sp = PyFloat.of_Z 1) /\
    ((forall i, i < 3 -> cell confusion_perfect i i = 0%Z) -> ms = PyFloat.of_Z 0).
Proof.
  apply (@computeMetrics_extremes confusion_perfect 3 3).
  - split; [reflexivity | repeat constructor].
  - lia.
  - lia.
Defined.

(** ** The feature extractor *)

Lemma mapM_ext_in {A B} (f g : A -> result B) xs :
  (forall x, In x xs -> f x = g x) -> mapM f xs = mapM g xs.
Proof.
  induction xs as [|x xs IH]; intros Hfg; cbn; [reflexivity|].
  rewrite (Hfg x) by now left.
  rewrite IH by (intros y Hy; apply Hfg; now right). reflexivity.
Qed.

Lemma mapM_In_Raise {A B} (f : A -> result B) xs x e :
  In x xs -> f x = Raise e -> exists e', mapM f xs = Raise e'.
Proof.
  induction xs as [|y xs IH]; intros Hin Hx; [contradiction|]. cbn.
  destruct Hin as [->|Hin].
  - rewrite Hx. cbn. eauto.
  - destruct (f y); cbn; [|eauto].
    destruct (IH Hin Hx) as [e' ->]. cbn. eauto.
Qed.

Lemma mapM_Raise_inv {A B} (f : A -> result B) xs e :
  mapM f xs = Raise e -> exists x, In x xs /\ f x = Raise e.
Proof.
  induction xs as [|y xs IH]; cbn; [discriminate|].
  destruct (f y) as [b|e'] eqn:Hy; cbn.
  - destruct (mapM f xs) as [bs|e'']; cbn; [discriminate|].
    intros E. inversion E; subst.
    destruct (IH eq_refl) as (x & Hx & Hfx). eauto.
  - intros E. inversion E; subst. eauto.
Qed.

Lemma slice_outside glcm n0 n1 n2 n3 i j :
  shape4 glcm = (n0, n1, n2, n3) -> n2 <= i \/ n3 <= j ->
  slice glcm i j = Raise IndexError.
Proof.
  intros Hshape Hout. unfold slice. rewrite Hshape.
  destruct (i <? n2) eqn:Hi; [|reflexivity].
  destruct (j <? n3) eqn:Hj; [|reflexivity].
  apply Nat.ltb_lt in Hi, Hj. lia.
Qed.

Lemma slice_Raise glcm i j e : slice glcm i j = Raise e -> e = IndexError.
Proof.
  unfold slice. destruct (shape4 glcm) as [[[n0 n1] n2] n3].
  destruct ((i <? n2) && (j <? n3)); congruence.
Qed.

Section EntropyProperties.

Context `{L : ImagingLib}.

(** X4: on a GLCM with fewer than 5 distances or fewer than 4 angles
    [glcmEntropy] never returns: its loops run to 5 and 4 whatever the
    array, and when [shannon_entropy] itself does not raise, what is raised
    is the [IndexError] of the first slice outside the array. *)
Theorem glcmEntropy_small_glcm glcm n0 n1 n2 n3 :
  shape4 glcm = (n0, n1, n2, n3) -> n2 < 5 \/ n3 < 4 ->
  (exists e, glcmEntropy glcm = Raise e) /\
  ((forall s, exists h, shannon_entropy s = OK h) ->
   glcmEntropy glcm = Raise IndexError).
Proof.
  intros Hshape Hsmall.
  assert (Hraise : exists e, glcmEntropy glcm = Raise e).
  { rewrite glcmEntropy_mapM.
    assert (Hbad : exists i j, i < 5 /\ j < 4 /\ (n2 <= i \/ n3 <= j)).
    { destruct Hsmall; [exists n2, 0 | exists 0, n3]; lia. }
    destruct Hbad as (i & j & Hi & Hj & Hout).
    apply (@mapM_In_Raise _ _ _ slices (i, j) IndexError).
    - apply nth_error_In with (n := 4 * i + j). now apply slices_nth_error.
    - cbn [fst snd]. unfold entropy_at.
      erewrite slice_outside; eauto. }
  split; [exact Hraise|].
  intros Htot. destruct Hraise as [e He]. rewrite He. f_equal.
  rewrite glcmEntropy_mapM in He.
  apply mapM_Raise_inv in He. destruct He as ([i j] & _ & Hij).
  cbn [fst snd] in Hij. unfold entropy_at in Hij.
  destruct (slice glcm i j) as [s|e'] eqn:Hs; cbn in Hij.
  - destruct (Htot s) as [h Hh]. congruence.
  - inversion Hij; subst. eapply slice_Raise; eauto.
Qed.

(** X5: the entropies depend on the 20 slices with distance index below 5
    and angle index below 4 only: further distances or angles of the array
    are never looked at. *)
Theorem glcmEntropy_first_slices glcm1 glcm2 :
  (forall i j, i < 5 -> j < 4 -> slice glcm1 i j = slice glcm2 i j) ->
  glcmEntropy glcm1 = glcmEntropy glcm2.
Proof.
  intros Hagree. rewrite !glcmEntropy_mapM. apply mapM_ext_in.
  intros [i j] Hin. cbn [fst snd]. unfold entropy_at.
  apply in_prod_iff in Hin. destruct Hin as [Hi Hj].
  apply in_seq in Hi, Hj. cbn in Hi, Hj.
  now rewrite Hagree by lia.
Qed.

End EntropyProperties.

(** X4 on a GLCM for 3 distances. *)
Lemma glcmEntropy_small_glcm_witness :
  (exists e, @glcmEntropy Solid.lib short_glcm = Raise e) /\
  ((forall s, exists h, @shannon_entropy Solid.lib s = OK h) ->
   @glcmEntropy Solid.lib short_glcm = Raise IndexError).
Proof.
  apply (@glcmEntropy_small_glcm Solid.lib short_glcm 256 256 3 4).
  - reflexivity.
  - lia.
Defined.

(** X5 on two GLCMs for 6 distances and 5 angles. *)
Lemma glcmEntropy_first_slices_witness :
  @glcmEntropy Solid.lib wide_glcm_a = @glcmEntropy Solid.lib wide_glcm_b.
Proof.
  apply (@glcmEntropy_first_slices Solid.lib wide_glcm_a wide_glcm_b).
  intros i j Hi Hj.
  destruct i as [|[|[|[|[|i]]]]]; [ | | | | | lia];
    (destruct j as [|[|[|[|j]]]]; [ | | | | lia]); reflexivity.
Defined.

(** ** The file test of the loader *)

Lemma string_length_append (p q : string) :
  String.length (p ++ q) = String.length p + String.length q.
Proof. induction p as [|a p IH]; cbn; [reflexivity | now rewrite IH]. Qed.

Lemma substring_whole (s : string) : substring 0 (String.length s) s = s.
Proof. induction s as [|a s IH]; cbn; [reflexivity | now rewrite IH]. Qed.

Lemma substring_after (p s : string) (m : nat) :
  substring (String.length p) m (p ++ s) = substring 0 m s.
Proof. induction p as [|a p IH]; cbn; [reflexivity | exact IH]. Qed.

Lemma substring_split (s : string) (k : nat) :
  k <= String.length s ->
  s = (substring 0 k s ++ substring k (String.length s - k) s)%string.
Proof.
  revert k. induction s as [|a s IH]; intros k Hk; cbn in Hk.
  - assert (k = 0) by lia. subst. reflexivity.
  - destruct k as [|k].
    + cbn. now rewrite substring_whole.
    + cbn. f_equal. apply IH. lia.
Qed.

Lemma endswith_iff (s suffix : string) :
  endswith s suffix = true <-> exists stem, s = (stem ++ suffix)%string.
Proof.
  unfold endswith. split.
  - intros H. apply andb_prop in H. destruct H as [Hle Heq].
    apply Nat.leb_le in Hle. apply String.eqb_eq in Heq.
    remember (String.length suffix) as m eqn:Hm.
    exists (substring 0 (String.length s - m) s).
    rewrite <- Heq.
    assert (Hk : String.length s - m <= String.length s) by lia.
    pose proof (substring_split s Hk) as Hsplit.
    replace (String.length s - (String.length s - m)) with m in Hsplit by lia.
    exact Hsplit.
  - intros [stem ->]. rewrite string_length_append.
    apply andb_true_intro. split.
    + apply Nat.leb_le. lia.
    + replace (String.length stem + String.length suffix - String.length suffix)
        with (String.length stem) by lia.
      rewrite substring_after, substring_whole. apply String.eqb_refl.
Qed.

(** The test of the loader passes exactly on a regular file whose path is
    some text followed by the four characters [.png]; it is
    case-sensitive. *)
Theorem is_png_iff (file : DirEntry) :
  is_png file = true <->
  is_file file = true /\ exists stem, path file = (stem ++ ".png")%string.
Proof.
  unfold is_png. rewrite andb_true_iff, endswith_iff. tauto.
Qed.

(** ** The dataset loader *)

Lemma eff_bind_outcome_OK {E A B} (c : Eff E A) (k : A -> Eff E B) b :
  outcome (bind c k) = OK b ->
  exists a, outcome c = OK a /\ outcome (k a) = OK b.
Proof.
  destruct c as [ev [a|e]]; cbn; [|discriminate].
  destruct (k a) as [ev' r] eqn:Hk. cbn. intros ->.
  exists a. rewrite Hk. split; reflexivity.
Qed.

Lemma for_each_eff_ext_in {E A S} (body body' : A -> S -> Eff E S) xs s :
  (forall x s, In x xs -> body x s = body' x s) ->
  for_each xs body s = for_each xs body' s.
Proof.
  revert s. induction xs as [|x xs IH]; intros s Hb; cbn [for_each].
  - reflexivity.
  - rewrite Hb by now left. apply eff_bind_ext.
    intros s'. apply IH. intros y s'' Hy. apply Hb. now right.
Qed.

Section LoaderFurther.

Context `{L : ImagingLib} `{F : FileSystem}.

Lemma scan_OK_listing i st st' :
  outcome (scan i st) = OK st' ->
  exists files, scandir ("imgs/" ++ str i ++ "/")%string = OK files.
Proof.
  unfold scan. destruct (scandir ("imgs/" ++ str i ++ "/")%string) as [files|e].
  - eauto.
  - cbn. discriminate.
Qed.

Lemma scan_missing i st e :
  scandir ("imgs/" ++ str i ++ "/")%string = Raise e ->
  scan i st = ([], Raise e).
Proof. intros Hdir. unfold scan. rewrite Hdir. reflexivity. Qed.

(** A loop over entries that returns has extracted each of them and
    computed each percentage. *)
Lemma loop_OK_inv entries :
  forall features types cnt st',
    outcome (for_each entries (fun e => visit (fst e) (snd e))
               (features, types, cnt)) = OK st' ->
    exists vs,
      extracted entries vs /\
      (forall k, cnt < k <= cnt + length entries ->
                 exists z, progress_value k = OK z).
Proof.
  induction entries as [|[i file] entries IH]; intros features types cnt st' Hrun.
  - exists []. split; [constructor | cbn; intros; lia].
  - cbn [for_each fst snd] in Hrun.
    apply eff_bind_outcome_OK in Hrun. destruct Hrun as (st1 & Hhead & Hrest).
    destruct (featuresFile (Some (path file)) None) as [v|e] eqn:Hv.
    2:{ rewrite (visit_extract_Raise i _ _ Hv) in Hhead. discriminate. }
    destruct (progress_value (cnt + 1)) as [z|e] eqn:Hz.
    2:{ unfold visit in Hhead. rewrite Hv, Hz in Hhead. discriminate. }
    rewrite (@visit_OK _ i file features types cnt v z Hv Hz) in Hhead.
    cbn in Hhead. inversion Hhead; subst st1; clear Hhead.
    apply IH in Hrest. destruct Hrest as (vs & Hvs & Hp).
    exists (v :: vs). split.
    + constructor; assumption.
    + intros k Hk. cbn [length] in Hk.
      destruct (Nat.eq_dec k (cnt + 1)) as [->|Hne]; [eauto|].
      apply Hp. lia.
Qed.

(** A call that returns has listed the four folders, and what it returns
    is what extraction gives on their processed entries, with their
    labels. *)
Lemma featuresFolder_OK_inv fs ts :
  outcome featuresFolder = OK (fs, ts) ->
  exists l1 l2 l3 l4,
    scandir "imgs/1/" = OK l1 /\ scandir "imgs/2/" = OK l2 /\
    scandir "imgs/3/" = OK l3 /\ scandir "imgs/4/" = OK l4 /\
    extracted (labelled l1 l2 l3 l4) fs /\
    ts = map fst (labelled l1 l2 l3 l4) /\
    events featuresFolder = flat_map file_events (seq 1 (length fs)).
Proof.
  intros Hrun.
  assert (Hdirs : exists l1 l2 l3 l4,
             scandir "imgs/1/" = OK l1 /\ scandir "imgs/2/" = OK l2 /\
             scandir "imgs/3/" = OK l3 /\ scandir "imgs/4/" = OK l4).
  { rewrite featuresFolder_scan in Hrun.
    apply eff_bind_outcome_OK in Hrun. destruct Hrun as (st & Hloop & _).
    cbn [range Nat.sub seq for_each] in Hloop.
    apply eff_bind_outcome_OK in Hloop. destruct Hloop as (s1 & H1 & Hloop).
    apply eff_bind_outcome_OK in Hloop. destruct Hloop as (s2 & H2 & Hloop).
    apply eff_bind_outcome_OK in Hloop. destruct Hloop as (s3 & H3 & Hloop).
    apply eff_bind_outcome_OK in Hloop. destruct Hloop as (s4 & H4 & _).
    apply scan_OK_listing in H1, H2, H3, H4.
    destruct H1 as [l1 H1], H2 as [l2 H2], H3 as [l3 H3], H4 as [l4 H4].
    exists l1, l2, l3, l4. repeat split; assumption. }
  destruct Hdirs as (l1 & l2 & l3 & l4 & H1 & H2 & H3 & H4).
  exists l1, l2, l3, l4. repeat (split; [assumption|]).
  rewrite (featuresFolder_flat H1 H2 H3 H4) in Hrun |- *.
  pose proof Hrun as Hinv.
  apply eff_bind_outcome_OK in Hinv. destruct Hinv as (st & Hloop & _).
  apply loop_OK_inv in Hloop. destruct Hloop as (vs & Hvs & Hp).
  rewrite (@loop_OK _ _ _ Hvs [] [] 0 Hp) in Hrun |- *.
  cbn in Hrun. inversion Hrun; subst.
  split; [assumption|]. split; [reflexivity|].
  cbn [bind ret eff_monad eff_bind events fst]. rewrite app_nil_r.
  now rewrite (Forall2_length Hvs).
Qed.

End LoaderFurther.

Lemma file_events_length k z :
  progress_value k = OK z -> length (file_events k) = 3.
Proof. intros Hz. unfold file_events. now rewrite Hz. Qed.

Lemma loader_trace_length n evs : loader_trace n evs -> length evs = 3 * n.
Proof.
  intros [-> Hp]. induction n as [|n IH]; [reflexivity|].
  rewrite seq_S, flat_map_app, length_app. cbn [flat_map]. rewrite app_nil_r.
  destruct (Hp (1 + n)) as [z Hz]; [lia|].
  rewrite (file_events_length _ Hz), IH by (intros k Hk; apply Hp; lia). lia.
Qed.

Lemma loader_trace_snoc n evs z :
  loader_trace n evs -> progress_value (n + 1) = OK z ->
  loader_trace (n + 1) (evs ++ file_events (n + 1)).
Proof.
  intros [-> Hp] Hz. split.
  - replace (n + 1) with (S n) by lia.
    rewrite seq_S, flat_map_app. cbn [flat_map]. now rewrite app_nil_r.
  - intros k Hk. destruct (Nat.eq_dec k (n + 1)) as [->|Hne]; [eauto|].
    apply Hp. lia.
Qed.

Section LoaderExtras.

Context `{L : ImagingLib} `{F : FileSystem}.

Lemma featuresFile_OK_length path image v :
  ImagingLibShapes L -> featuresFile path image = OK v -> length v = 360.
Proof.
  intros shapes E. unfold featuresFile in E. bind_inv E.
  inversion E; subst; clear E.
  repeat match goal with
         | Hs : featuresSizes _ = OK _ |- _ =>
             apply (featuresSizes_inv shapes) in Hs;
             destruct Hs as (? & ? & ? & ? & ? & ? & ?)
         end.
  subst.
  repeat match goal with
         | Hb : scale_block _ _ _ |- _ => apply scale_block_length in Hb
         end.
  rewrite !length_app. lia.
Qed.

(** X7: whatever [featuresFolder] returns is a well-formed dataset: as many
    vectors as labels, every vector of 360 values, and the labels a run of
    1s, then of 2s, of 3s and of 4s. *)
Theorem featuresFolder_dataset_shape fs ts :
  ImagingLibShapes L ->
  outcome featuresFolder = OK (fs, ts) ->
  length fs = length ts /\
  Forall (fun v => length v = 360) fs /\
  exists n1 n2 n3 n4,
    ts = repeat 1 n1 ++ repeat 2 n2 ++ repeat 3 n3 ++ repeat 4 n4.
Proof.
  intros shapes Hrun. apply featuresFolder_OK_inv in Hrun.
  destruct Hrun as (l1 & l2 & l3 & l4 & _ & _ & _ & _ & Hvs & -> & _).
  split; [|split].
  - rewrite length_map. symmetry. apply (Forall2_length Hvs).
  - clear - shapes Hvs. induction Hvs as [|e v entries vs Hv _ IH]; constructor.
    + eapply featuresFile_OK_length; eauto.
    + exact IH.
  - rewrite labelled_labels. eauto.
Qed.

(** X8: a dataset is returned only when all four class folders could be
    listed, and it is then complete and aligned: vector number k is what
    extraction gives on the k-th processed entry (folders in order 1 to 4,
    entries in listing order) and label number k is the number of that
    entry's folder. *)
Theorem featuresFolder_complete fs ts :
  outcome featuresFolder = OK (fs, ts) ->
  exists l1 l2 l3 l4,
    scandir "imgs/1/" = OK l1 /\ scandir "imgs/2/" = OK l2 /\
    scandir "imgs/3/" = OK l3 /\ scandir "imgs/4/" = OK l4 /\
    extracted (labelled l1 l2 l3 l4) fs /\
    ts = map fst (labelled l1 l2 l3 l4).
Proof.
  intros Hrun. apply featuresFolder_OK_inv in Hrun.
  destruct Hrun as (l1 & l2 & l3 & l4 & H1 & H2 & H3 & H4 & Hvs & Hts & _).
  exists l1, l2, l3, l4. repeat split; assumption.
Qed.

Lemma visit_trace i file evs st :
  (let '(features, types, cnt) := st in
   length features = cnt /\ loader_trace cnt evs) ->
  match visit i file st with
  | (ev, OK st') =>
      let '(features, types, cnt) := st' in
      length features = cnt /\ loader_trace cnt (evs ++ ev)
  | (ev, Raise _) => exists n, loader_trace n (evs ++ ev)
  end.
Proof.
  destruct st as [[features types] cnt]. intros [Hf Htr].
  destruct (featuresFile (Some (path file)) None) as [v|e] eqn:Hv.
  2:{ rewrite (visit_extract_Raise i _ _ Hv), app_nil_r. eauto. }
  destruct (progress_value (cnt + 1)) as [z|e] eqn:Hz.
  2:{ unfold visit. rewrite Hv, Hz. cbn. rewrite app_nil_r. eauto. }
  rewrite (@visit_OK _ i file features types cnt v z Hv Hz). split.
  - rewrite length_app. cbn. lia.
  - eapply loader_trace_snoc; eauto.
Qed.

(** X9: in every run, returning or raising, the screen sees nothing but,
    for k = 1, 2, ..., n in turn, the progress value of k, a redraw and the
    text [Generaring features...k/400]: three events per processed file,
    none before the first file or after a failure; when the call returns,
    n is the number of vectors. *)
Theorem featuresFolder_trace :
  exists n,
    loader_trace n (events featuresFolder) /\
    length (events featuresFolder) = 3 * n /\
    forall fs ts, outcome featuresFolder = OK (fs, ts) -> n = length fs.
Proof.
  pose (I := fun (evs : list ScreenEvent) (st : loader_state) =>
               let '(features, types, cnt) := st in
               length features = cnt /\ loader_trace cnt evs).
  pose (J := fun evs : list ScreenEvent => exists n, loader_trace n evs).
  assert (Hscan : forall i evs st, In i (range 1 5) -> I evs st ->
             match scan i st with
             | (ev, OK st') => I (evs ++ ev) st'
             | (ev, Raise _) => J (evs ++ ev)
             end).
  { intros i evs st _ Hinv. unfold scan.
    destruct (scandir ("imgs/" ++ str i ++ "/")%string) as [files|e].
    - rewrite eff_bind_lift_OK.
      apply (for_each_eff_inv I J); [|exact Hinv].
      intros file evs' st' _ Hinv'. destruct (is_png file).
      + now apply visit_trace.
      + cbn. now rewrite app_nil_r.
    - cbn. rewrite app_nil_r. destruct st as [[features types] cnt].
      destruct Hinv as [_ Htr]. exists cnt. exact Htr. }
  assert (Hstart : I [] (([], [], 0) : loader_state)).
  { split; [reflexivity|]. split; [reflexivity | intros k Hk; lia]. }
  pose proof (for_each_eff_inv I J scan (range 1 5) Hscan [] _ Hstart) as Hinv.
  rewrite featuresFolder_scan.
  destruct (for_each (range 1 5) scan ([], [], 0)) as [ev [[[fs ts] cnt]|e]];
    cbn [app] in Hinv;
    cbn [bind ret eff_monad eff_bind events outcome fst snd];
    rewrite ?app_nil_r.
  - destruct Hinv as [Hf Htr]. exists cnt. split; [exact Htr|]. split.
    + now apply loader_trace_length.
    + intros fs' ts' E. inversion E; subst. reflexivity.
  - destruct Hinv as [n Htr]. exists n. split; [exact Htr|]. split.
    + now apply loader_trace_length.
    + intros fs' ts' E. discriminate.
Qed.

(** X6: the entries [featuresFolder] processes are exactly the regular
    files whose path is some text followed by the four characters [.png]
    (case-sensitive).  Whatever decides that property of an entry, a dataset
    the loader returns has one vector and one label for each entry of the
    four class folders that has it, in order, none for any other entry, and
    the screen has seen the events of that many files. *)
Theorem featuresFolder_processed_entries (keep : DirEntry -> bool) l1 l2 l3 l4 fs ts :
  (forall file,
      keep file = true <->
      is_file file = true /\ exists stem, path file = (stem ++ ".png")%string) ->
  scandir "imgs/1/" = OK l1 -> scandir "imgs/2/" = OK l2 ->
  scandir "imgs/3/" = OK l3 -> scandir "imgs/4/" = OK l4 ->
  outcome featuresFolder = OK (fs, ts) ->
  Forall2 (fun e v => featuresFile (Some (path (snd e))) None = OK v)
          (entries_where keep l1 l2 l3 l4) fs /\
  ts = map fst (entries_where keep l1 l2 l3 l4) /\
  events featuresFolder
  = flat_map file_events (seq 1 (length (entries_where keep l1 l2 l3 l4))).
Proof.
  intros Hkeep H1 H2 H3 H4 Hrun.
  assert (Hsame : forall l, filter keep l = pngs l).
  { intros l. apply filter_ext. intros file.
    pose proof (Hkeep file) as Hk. pose proof (is_png_iff file) as Hp.
    destruct (keep file), (is_png file); try reflexivity.
    - assert (false = true) by tauto. discriminate.
    - assert (false = true) by tauto. discriminate. }
  assert (Hentries : entries_where keep l1 l2 l3 l4 = labelled l1 l2 l3 l4).
  { unfold entries_where, labelled. now rewrite !Hsame. }
  rewrite Hentries.
  apply featuresFolder_OK_inv in Hrun.
  destruct Hrun as (l1' & l2' & l3' & l4' & H1' & H2' & H3' & H4' & Hvs & Hts & Hev).
  assert (l1' = l1) by congruence. assert (l2' = l2) by congruence.
  assert (l3' = l3) by congruence. assert (l4' = l4) by congruence.
  subst l1' l2' l3' l4'.
  split; [exact Hvs|]. split; [exact Hts|].
  now rewrite Hev, <- (Forall2_length Hvs).
Qed.

End LoaderExtras.

Section LoaderFolders.

Context `{L : ImagingLib} `{F : FileSystem}.

(** The loops over the first [n] folders, all listed, are one loop over
    their processed entries. *)
Lemma scans_listing (ls : nat -> list DirEntry) n st :
  (forall j, 1 <= j <= n -> scandir ("imgs/" ++ str j ++ "/")%string = OK (ls j)) ->
  for_each (seq 1 n) scan st
  = for_each (entries_upto ls n) (fun e => visit (fst e) (snd e)) st.
Proof.
  revert st. induction n as [|n IH]; intros st Hdirs; [reflexivity|].
  unfold entries_upto. rewrite seq_S, flat_map_app, !for_each_eff_app.
  fold (entries_upto ls n). rewrite IH by (intros j Hj; apply Hdirs; lia).
  apply eff_bind_ext. intros st'. cbn [flat_map for_each].
  rewrite app_nil_r, eff_bind_ret_r.
  apply scan_listing. apply Hdirs. lia.
Qed.

(** X10: a class folder that cannot be listed makes the whole call raise.
    When the folders before it could be listed and their entries processed,
    the exception is the one [os.scandir] raised, after the screen events
    of those entries; the folders after it are not looked at. *)
Theorem featuresFolder_missing_folder i e :
  In i (range 1 5) ->
  scandir ("imgs/" ++ str i ++ "/")%string = Raise e ->
  (exists e', outcome featuresFolder = Raise e') /\
  (forall ls vs,
      (forall j, 1 <= j < i ->
                 scandir ("imgs/" ++ str j ++ "/")%string = OK (ls j)) ->
      extracted (entries_upto ls (i - 1)) vs ->
      (forall k, 1 <= k <= length vs -> exists z, progress_value k = OK z) ->
      featuresFolder = (flat_map file_events (seq 1 (length vs)), Raise e)).
Proof.
  intros Hi Hdir. split.
  - rewrite featuresFolder_scan.
    destruct (@for_each_eff_raises _ _ _ scan (range 1 5) i Hi)
      with (s := ([], [], 0) : loader_state) as [e' He'].
    + intros s. rewrite (scan_missing _ _ Hdir). cbn. eauto.
    + exists e'. destruct (for_each (range 1 5) scan _) as [ev [s'|e'']];
        cbn in *; congruence.
  - intros ls vs Hdirs Hvs Hp.
    assert (Hsplit : range 1 5 = seq 1 (i - 1) ++ i :: seq (S i) (4 - i)).
    { cbn in Hi. destruct Hi as [<-|[<-|[<-|[<-|[]]]]]; reflexivity. }
    rewrite featuresFolder_scan, Hsplit, for_each_eff_app.
    rewrite (scans_listing ls) by (intros j Hj; apply Hdirs; lia).
    rewrite (@loop_OK _ _ _ Hvs [] [] 0)
      by (intros k Hk; apply Hp; rewrite <- (Forall2_length Hvs); lia).
    cbn [bind eff_monad eff_bind for_each].
    rewrite (scan_missing _ _ Hdir). cbn.
    now rewrite app_nil_r, (Forall2_length Hvs).
Qed.

(** X12: when no class folder holds an entry the loader processes, the
    loader returns an empty dataset and the screen sees nothing. *)
Theorem featuresFolder_no_image l1 l2 l3 l4 :
  scandir "imgs/1/" = OK l1 -> scandir "imgs/2/" = OK l2 ->
  scandir "imgs/3/" = OK l3 -> scandir "imgs/4/" = OK l4 ->
  pngs l1 = [] -> pngs l2 = [] -> pngs l3 = [] -> pngs l4 = [] ->
  featuresFolder = ([], OK ([], [])).
Proof.
  intros H1 H2 H3 H4 E1 E2 E3 E4.
  rewrite (featuresFolder_flat H1 H2 H3 H4).
  unfold labelled. rewrite E1, E2, E3, E4. reflexivity.
Qed.

End LoaderFolders.

(** X11: entries that are not processed (other extensions, folders) do not
    change anything: two trees whose class folders hold the same processed
    entries, or fail to list with the same exception, give the same run of
    the loader. *)
Theorem featuresFolder_strays `{L : ImagingLib} (F1 F2 : FileSystem) :
  (forall i, In i (range 1 5) ->
     listing_pngs (@scandir F1 ("imgs/" ++ str i ++ "/")%string)
     = listing_pngs (@scandir F2 ("imgs/" ++ str i ++ "/")%string)) ->
  @featuresFolder L F1 = @featuresFolder L F2.
Proof.
  intros Hsame. rewrite !featuresFolder_scan. f_equal.
  apply for_each_eff_ext_in. intros i st Hi.
  specialize (Hsame i Hi). unfold scan.
  destruct (@scandir F1 ("imgs/" ++ str i ++ "/")%string) as [files1|e1];
    destruct (@scandir F2 ("imgs/" ++ str i ++ "/")%string) as [files2|e2];
    cbn in Hsame; try discriminate.
  - rewrite !eff_bind_lift_OK, !(for_each_eff_filter is_png (visit i)).
    fold (pngs files1). fold (pngs files2). congruence.
  - congruence.
Qed.

(** ** The progress percentage *)

(** X13: for the 400 files the loader expects, the percentage shown never
    decreases from one file to the next, is 0 before the fourth file and
    100 at the last; it is the exact percentage rounded down, except after
    116, 228 and 232 files, where binary64 rounding makes it one less. *)
Theorem progress_value_expected k :
  k <= 400 ->
  exists v v',
    progress_value k = OK v /\ progress_value (S k) = OK v' /\
    (v <= v')%Z /\
    (In k short_counts -> v = (exact_percent k - 1)%Z) /\
    (~ In k short_counts -> v = exact_percent k).
Proof.
  intros Hk.
  assert (Hall : forallb percent_checked (seq 0 401) = true)
    by (vm_compute; reflexivity).
  rewrite forallb_forall in Hall.
  assert (Hin : In k (seq 0 401)) by (apply in_seq; lia).
  apply Hall in Hin. unfold percent_checked in Hin.
  destruct (progress_value k) as [v|]; [|discriminate].
  destruct (progress_value (S k)) as [v'|]; [|discriminate].
  apply andb_prop in Hin. destruct Hin as [Hval Hmono].
  exists v, v'. repeat split; try reflexivity.
  - now apply Z.leb_le.
  - intros Hshort.
    assert (Hb : existsb (Nat.eqb k) short_counts = true).
    { apply existsb_exists. exists k. split; [exact Hshort | apply Nat.eqb_refl]. }
    rewrite Hb in Hval. now apply Z.eqb_eq.
  - intros Hlong.
    destruct (existsb (Nat.eqb k) short_counts) eqn:Hb.
    + apply existsb_exists in Hb. destruct Hb as (x & Hx & Hxk).
      apply Nat.eqb_eq in Hxk. subst. contradiction.
    + now apply Z.eqb_eq.
Qed.

(** ** The trainer *)

Lemma string_append_assoc (a b c : string) :
  ((a ++ b) ++ c)%string = (a ++ (b ++ c))%string.
Proof. induction a as [|x a IH]; cbn; [reflexivity | now rewrite IH]. Qed.

(** One step of the trainer whose head is known. *)
Ltac eff_step :=
  cbn [bind ret eff_monad eff_bind lift emit fst snd app].

Section TrainerProperties.

Context `{L : ImagingLib} `{F : FileSystem} `{K : Learner}.

(** X14: when loading raises, [trainModel] raises the same exception and
    the screen has seen the loader's events only: the progress bar is not
    destroyed, [Training...] is not shown and nothing is split or fitted. *)
Theorem trainModel_load_failure e :
  outcome featuresFolder = Raise e ->
  trainModel = (map Screen (events featuresFolder), Raise e).
Proof.
  intros Hload. unfold trainModel, on_screen. rewrite Hload. reflexivity.
Qed.

(** X15: when the confusion matrix of the held-out part has fewer than 3
    rows or 3 columns (fewer than 3 classes among its true and predicted
    labels), [trainModel] raises [IndexError] after the classifier has been
    fitted: the classifier is lost and the screen is left on
    [Training...]. *)
Theorem trainModel_small_confusion
    fs ts X_train x_test y_train y_test c0 c1 y_pred acc m r c :
  outcome featuresFolder = OK (fs, ts) ->
  train_test_split fs ts test_size = OK (X_train, x_test, y_train, y_test) ->
  SVC "linear" true "scale" C_one = OK c0 ->
  fit c0 X_train y_train = OK c1 ->
  predict c1 x_test = OK y_pred ->
  accuracy_score y_test y_pred = OK acc ->
  confusion_matrix y_test y_pred = OK m ->
  has_shape m r c -> Nat.min r c < 3 ->
  trainModel
  = (map Screen (events featuresFolder)
       ++ [ProgressBar_destroy; Screen (Text_set "Training...")],
     Raise IndexError).
Proof.
  intros Hload Hsplit Hsvc Hfit Hpred Hacc Hconf Hshape Hsmall.
  unfold trainModel, on_screen. rewrite Hload. eff_step.
  rewrite Hsplit. eff_step. rewrite Hsvc. eff_step. rewrite Hfit. eff_step.
  rewrite Hpred. eff_step. rewrite Hacc. eff_step. rewrite Hconf. eff_step.
  rewrite (@computeMetrics_small_outcome m r c Hshape Hsmall). eff_step.
  reflexivity.
Qed.

(** X16: in every run of [trainModel] the screen sees the loader's events
    first and unchanged; if loading raised, nothing more; otherwise the
    progress bar is destroyed next, exactly once, never to be updated
    again, followed at most by [Training...] and then one summary text. *)
Theorem trainModel_screen_protocol :
  exists tail,
    events trainModel = map Screen (events featuresFolder) ++ tail /\
    ((exists e, outcome featuresFolder = Raise e) /\ tail = [] \/
     (exists dataset, outcome featuresFolder = OK dataset) /\
     exists rest,
       tail = ProgressBar_destroy :: rest /\
       (rest = [] \/ rest = [Screen (Text_set "Training...")] \/
        exists info, rest = [Screen (Text_set "Training..."); Screen (Text_set info)])).
Proof.
  unfold trainModel, on_screen.
  destruct (outcome featuresFolder) as [[fs ts]|e] eqn:Hload; eff_step.
  2:{ exists []. rewrite app_nil_r. split; [reflexivity|]. left. eauto. }
  assert (Hok : exists dataset : list (list float) * list nat,
             OK (fs, ts) = OK dataset) by eauto.
  destruct (train_test_split fs ts test_size) as [[[[Xtr xte] ytr] yte]|e]; eff_step.
  2:{ eexists. split; [reflexivity|]. right. split; [exact Hok|]. eauto. }
  destruct (SVC "linear" true "scale" C_one) as [c0|e]; eff_step.
  2:{ eexists. split; [reflexivity|]. right. split; [exact Hok|]. eauto. }
  destruct (fit c0 Xtr ytr) as [c1|e]; eff_step.
  2:{ eexists. split; [reflexivity|]. right. split; [exact Hok|]. eauto. }
  destruct (predict c1 xte) as [yp|e]; eff_step.
  2:{ eexists. split; [reflexivity|]. right. split; [exact Hok|]. eauto. }
  destruct (accuracy_score yte yp) as [acc|e]; eff_step.
  2:{ eexists. split; [reflexivity|]. right. split; [exact Hok|]. eauto. }
  destruct (confusion_matrix yte yp) as [m|e]; eff_step.
  2:{ eexists. split; [reflexivity|]. right. split; [exact Hok|]. eauto. }
  destruct (outcome (computeMetrics m)) as [[ms sp]|e]; eff_step.
  2:{ eexists. split; [reflexivity|]. right. split; [exact Hok|]. eauto. }
  eexists. split; [reflexivity|]. right. split; [exact Hok|].
  eexists. split; [reflexivity|]. right. right. eauto.
Qed.

(** X17: a classifier returned by [trainModel] is the one [fit] gave on the
    training part of the split of the loaded dataset; the nine cells of the
    top-left corner of the confusion matrix of the held-out part exist; and
    the screen ends on the summary of that matrix, the accuracy, the two
    metrics of [computeMetrics] and the time between the two clock
    readings. *)
Theorem trainModel_returns clf :
  outcome trainModel = OK clf ->
  exists fs ts X_train x_test y_train y_test c0 y_pred acc m ms sp,
    outcome featuresFolder = OK (fs, ts) /\
    train_test_split fs ts test_size = OK (X_train, x_test, y_train, y_test) /\
    SVC "linear" true "scale" C_one = OK c0 /\
    fit c0 X_train y_train = OK clf /\
    predict clf x_test = OK y_pred /\
    accuracy_score y_test y_pred = OK acc /\
    confusion_matrix y_test y_pred = OK m /\
    outcome (computeMetrics m) = OK (ms, sp) /\
    (forall i j, i < 3 -> j < 3 -> exists z, lookup m i j = OK z) /\
    events trainModel
    = map Screen (events featuresFolder)
        ++ training_events
             (summary m acc ms sp (PrimFloat.sub (clock 1) (clock 0))).
Proof.
  unfold trainModel, on_screen.
  destruct (outcome featuresFolder) as [[fs ts]|e] eqn:Hload; eff_step;
    [|discriminate].
  destruct (train_test_split fs ts test_size) as [[[[Xtr xte] ytr] yte]|e] eqn:Hsplit;
    eff_step; [|discriminate].
  destruct (SVC "linear" true "scale" C_one) as [c0|e] eqn:Hsvc; eff_step;
    [|discriminate].
  destruct (fit c0 Xtr ytr) as [c1|e] eqn:Hfit; eff_step; [|discriminate].
  destruct (predict c1 xte) as [yp|e] eqn:Hpred; eff_step; [|discriminate].
  destruct (accuracy_score yte yp) as [acc|e] eqn:Hacc; eff_step; [|discriminate].
  destruct (confusion_matrix yte yp) as [m|e] eqn:Hconf; eff_step; [|discriminate].
  destruct (outcome (computeMetrics m)) as [[ms sp]|e] eqn:Hmet; eff_step;
    [|discriminate].
  intros E. inversion E; subst clf; clear E.
  exists fs, ts, Xtr, xte, ytr, yte, c0, yp, acc, m, ms, sp.
  repeat (split; [assumption || reflexivity|]).
  split.
  - revert Hmet. metrics_unfold. metrics_cases; try discriminate.
    intros _ i j Hi Hj.
    destruct i as [|[|[|i]]]; [ | | | lia];
      (destruct j as [|[|[|j]]]; [ | | | lia]); eauto.
  - unfold training_events, summary.
    rewrite !string_append_assoc. reflexivity.
Qed.

End TrainerProperties.

(** ** The saved model *)

(** X18: given joblib's round trip, [loadModel] returns the model of the
    latest [saveModel]: both use the same file, and a later save replaces
    an earlier one. *)
Theorem saveModel_loadModel {Model} `{J : Joblib Model} :
  JoblibRoundTrip ->
  (forall model files files',
      saveModel model files = OK files' -> loadModel files' = OK model) /\
  (forall model1 model2 files files1 files2,
      saveModel model1 files = OK files1 ->
      saveModel model2 files1 = OK files2 ->
      loadModel files2 = OK model2).
Proof.
  intros Hrt. split.
  - intros model files files' Hsave. exact (Hrt _ _ _ _ Hsave).
  - intros model1 model2 files files1 files2 _ Hsave. exact (Hrt _ _ _ _ Hsave).
Qed.

(** ** The further properties on the sample inputs *)

(** C9 (amended) on a 4-class matrix and on a held-out part whose true
    labels are all 1 and whose predictions are 2 and 3. *)
Lemma computeMetrics_index_safety_classes_witness :
  (Forall (fun ij => fst ij < 3 /\ snd ij < 3) (events (computeMetrics confusion_a)) /\
   (3 <= 4 -> 3 <= 4 ->
    Forall (fun ij => fst ij < 4 /\ snd ij < 4) (events (computeMetrics confusion_a)) /\
    exists v, outcome (computeMetrics confusion_a) = OK v) /\
   (4 < 3 \/ 4 < 3 -> outcome (computeMetrics confusion_a) = Raise IndexError)) /\
  (length (class_labels ([1; 1] ++ [2; 3])) = 3 /\
   exists v, outcome (computeMetrics (confusion_of [1; 1] [2; 3])) = OK v).
Proof.
  destruct computeMetrics_index_safety_classes as [Hmatrix Hsplit]. split.
  - apply (Hmatrix confusion_a 4 4).
    split; [reflexivity | repeat constructor].
  - split; [reflexivity|].
    apply (Hsplit [1; 1] [2; 3]). cbn. lia.
Defined.

(** X6 on the small tree, the property decided by the loader's own test. *)
Lemma featuresFolder_processed_entries_witness :
  Forall2 (fun e v => @featuresFile Solid.lib (Some (path (snd e))) None = OK v)
          [(1, Solid.file "imgs/1/a.png"); (2, Solid.file "imgs/2/b.png");
           (4, Solid.file "imgs/4/c.png"); (4, Solid.file "imgs/4/d.png")]
          small_features /\
  [1; 2; 4; 4]
  = map fst [(1, Solid.file "imgs/1/a.png"); (2, Solid.file "imgs/2/b.png");
             (4, Solid.file "imgs/4/c.png"); (4, Solid.file "imgs/4/d.png")] /\
  events (@featuresFolder Solid.lib Solid.small_tree)
  = flat_map file_events (seq 1 4).
Proof.
  refine (@featuresFolder_processed_entries Solid.lib Solid.small_tree is_png
            _ _ _ _ small_features [1; 2; 4; 4] is_png_iff
            eq_refl eq_refl eq_refl eq_refl _).
  vm_compute. reflexivity.
Defined.

(** X7 on the small tree. *)
Lemma featuresFolder_dataset_shape_witness :
  length small_features = length [1; 2; 4; 4] /\
  Forall (fun v => length v = 360) small_features /\
  exists n1 n2 n3 n4,
    [1; 2; 4; 4] = repeat 1 n1 ++ repeat 2 n2 ++ repeat 3 n3 ++ repeat 4 n4.
Proof.
  apply (@featuresFolder_dataset_shape Solid.lib Solid.small_tree
           small_features [1; 2; 4; 4] Solid_shapes).
  vm_compute. reflexivity.
Defined.

(** X8 on the small tree. *)
Lemma featuresFolder_complete_witness :
  exists l1 l2 l3 l4,
    @scandir Solid.small_tree "imgs/1/" = OK l1 /\
    @scandir Solid.small_tree "imgs/2/" = OK l2 /\
    @scandir Solid.small_tree "imgs/3/" = OK l3 /\
    @scandir Solid.small_tree "imgs/4/" = OK l4 /\
    @extracted Solid.lib (labelled l1 l2 l3 l4) small_features /\
    [1; 2; 4; 4] = map fst (labelled l1 l2 l3 l4).
Proof.
  apply (@featuresFolder_complete Solid.lib Solid.small_tree
           small_features [1; 2; 4; 4]).
  vm_compute. reflexivity.
Defined.

(** X10 on the tree without folder 3: the call raises what [os.scandir]
    raised, after the two files of folders 1 and 2. *)
Lemma featuresFolder_missing_folder_witness :
  (exists e', outcome (@featuresFolder Solid.lib Bench.missing_tree) = Raise e') /\
  @featuresFolder Solid.lib Bench.missing_tree
  = (flat_map file_events (seq 1 2), Raise (LibraryError "FileNotFoundError")).
Proof.
  destruct (@featuresFolder_missing_folder Solid.lib Bench.missing_tree 3
              (LibraryError "FileNotFoundError"))
    as [Hraises Hfirst].
  - cbn. tauto.
  - reflexivity.
  - split; [exact Hraises|].
    refine (Hfirst (fun j => match @scandir Solid.small_tree
                                     ("imgs/" ++ str j ++ "/")%string with
                             | OK files => files
                             | Raise _ => []
                             end)
                   (firstn 2 small_features) _ _ _).
    + intros j Hj. assert (Hcases : j = 1 \/ j = 2) by lia.
      destruct Hcases as [->| ->]; reflexivity.
    + unfold extracted.
      repeat (apply Forall2_cons; [vm_compute; reflexivity|]). apply Forall2_nil.
    + intros k Hk. cbn in Hk.
      destruct k as [|[|[|k]]]; try lia; eexists; vm_compute; reflexivity.
Defined.

(** X11 on the small tree and the same tree without its stray entries. *)
Lemma featuresFolder_strays_witness :
  @featuresFolder Solid.lib Solid.small_tree
  = @featuresFolder Solid.lib Bench.clean_tree.
Proof.
  apply (@featuresFolder_strays Solid.lib Solid.small_tree Bench.clean_tree).
  intros i Hi. cbn in Hi.
  destruct Hi as [<-|[<-|[<-|[<-|[]]]]]; vm_compute; reflexivity.
Defined.

(** X12 on a tree with a text file, an upper-case extension and a folder. *)
Lemma featuresFolder_no_image_witness :
  @featuresFolder Solid.lib Bench.empty_tree = ([], OK ([], [])).
Proof.
  refine (@featuresFolder_no_image Solid.lib Bench.empty_tree _ _ _ _
            eq_refl eq_refl eq_refl eq_refl _ _ _ _); reflexivity.
Defined.

(** X13 at 116 files: 28 per cent shown where the exact value is 29. *)
Lemma progress_value_expected_witness :
  exists v v',
    progress_value 116 = OK v /\ progress_value 117 = OK v' /\
    (v <= v')%Z /\
    (In 116 short_counts -> v = (exact_percent 116 - 1)%Z) /\
    (~ In 116 short_counts -> v = exact_percent 116).
Proof. apply (@progress_value_expected 116). lia. Defined.

(** X14 on the tree with an unreadable image. *)
Lemma trainModel_load_failure_witness :
  @trainModel Solid.lib Solid.broken_tree Bench.learner
  = (map Screen (events (@featuresFolder Solid.lib Solid.broken_tree)),
     Raise (LibraryError "UnidentifiedImageError")).
Proof.
  apply (@trainModel_load_failure Solid.lib Solid.broken_tree Bench.learner).
  vm_compute. reflexivity.
Defined.

(** X15 on the small tree: one held-out sample, a 2 x 2 confusion matrix. *)
Lemma trainModel_small_confusion_witness :
  @trainModel Solid.lib Solid.small_tree Bench.learner
  = (map Screen (events (@featuresFolder Solid.lib Solid.small_tree))
       ++ [ProgressBar_destroy; Screen (Text_set "Training...")],
     Raise IndexError).
Proof.
  apply (@trainModel_small_confusion Solid.lib Solid.small_tree Bench.learner
           small_features [1; 2; 4; 4]
           (Bench.pick (fun k => negb (Bench.in_test k)) 0 small_features)
           (Bench.pick Bench.in_test 0 small_features)
           [2; 4; 4] [1] None (Some 2) [2] (PyFloat.truediv 0 1)
           [[0; 1]; [0; 0]]%Z 2 2).
  - vm_compute. reflexivity.
  - vm_compute. reflexivity.
  - reflexivity.
  - reflexivity.
  - vm_compute. reflexivity.
  - vm_compute. reflexivity.
  - vm_compute. reflexivity.
  - split; [reflexivity | repeat constructor].
  - cbn. lia.
Defined.

(** X17 on the tree with five images per class. *)
Lemma trainModel_returns_witness :
  exists fs ts X_train x_test y_train y_test c0 y_pred acc m ms sp,
    outcome (@featuresFolder Solid.lib Bench.class_tree) = OK (fs, ts) /\
    @train_test_split Bench.learner fs ts test_size
      = OK (X_train, x_test, y_train, y_test) /\
    @SVC Bench.learner "linear" true "scale" C_one = OK c0 /\
    @fit Bench.learner c0 X_train y_train = OK (Some 1) /\
    @predict Bench.learner (Some 1) x_test = OK y_pred /\
    @accuracy_score Bench.learner y_test y_pred = OK acc /\
    @confusion_matrix Bench.learner y_test y_pred = OK m /\
    outcome (computeMetrics m) = OK (ms, sp) /\
    (forall i j, i < 3 -> j < 3 -> exists z, lookup m i j = OK z) /\
    events (@trainModel Solid.lib Bench.class_tree Bench.learner)
    = map Screen (events (@featuresFolder Solid.lib Bench.class_tree))
        ++ training_events
             (@summary Bench.learner m acc ms sp
                (PrimFloat.sub (@clock Bench.learner 1) (@clock Bench.learner 0))).
Proof.
  apply (@trainModel_returns Solid.lib Bench.class_tree Bench.learner (Some 1)).
  vm_compute. reflexivity.
Defined.

Lemma Bench_store_round_trip (Model : Type) : @JoblibRoundTrip Model (Bench.store Model).
Proof.
  intros model name files files' Hdump. cbn in Hdump. inversion Hdump; subst.
  cbn. unfold Bench.lookup_file. cbn. now rewrite String.eqb_refl.
Qed.

(** X18 on a store of named files. *)
Lemma saveModel_loadModel_witness :
  (forall (model : nat) files files',
      @saveModel nat (Bench.store nat) model files = OK files' ->
      loadModel files' = OK model) /\
  (forall (model1 model2 : nat) files files1 files2,
      @saveModel nat (Bench.store nat) model1 files = OK files1 ->
      saveModel model2 files1 = OK files2 ->
      loadModel files2 = OK model2).
Proof.
  apply (@saveModel_loadModel nat (Bench.store nat)).
  apply Bench_store_round_trip.
Defined.
